(** * Space Dodger (game.py): the simulation core of [Game]

    A shallow embedding of [Game.reset], [Game.update], [Game.fire_bullet],
    the spawners and one pass of the [Game.run] loop, followed by the
    properties of the frame step, the collision rules, the timers and
    the boss.

    Numbers.  Python floats and ints are embedded as exact rationals [Q]:
    [+], [-], [*], [/] and the comparisons are the rational ones, [int(v)]
    is truncation toward zero.  Rounding, infinities and NaN are outside
    the model.

    Outside world.  [math.sin], [math.cos] and [math.hypot] and the outcomes
    of the [random] module are not computed here; they are supplied by an
    environment [Env], and every property below holds for every environment.
    The position in the random sequence, the content of the highscore file
    and the list of sounds handed to [Game.play] are carried in the state
    next to the attributes of [self]. *)

From Stdlib Require Import QArith Qround Qminmax ZArith List Bool String Lia Lqa.
Import ListNotations.
Open Scope Q_scope.

(** ** Config *)

Definition SCREEN_W : Q := 480.
Definition SCREEN_H : Q := 640.

Definition PLAYER_SPEED : Q := 320.
Definition PLAYER_W : Q := 36.
Definition PLAYER_H : Q := 24.
Definition PLAYER_Y : Q := SCREEN_H - 64.
Definition PLAYER_COOLDOWN : Q := 0.22.

Definition BULLET_SPEED : Q := 480.
Definition BULLET_W : Z := 4.
Definition BULLET_H : Z := 10.

Definition ENEMY_MIN_SPEED : Q := 70.
Definition ENEMY_MAX_SPEED : Q := 160.
Definition ENEMY_SPAWN_INTERVAL_START : Q := 0.95.
Definition ENEMY_SPAWN_INTERVAL_MIN : Q := 0.35.

Definition POWERUP_SPAWN_CHANCE : Q := 0.04.
Definition POWERUP_DURATION : Q := 8.

Definition BOSS_APPEAR_SCORE : Q := 300.

(** ** Numbers *)

(** [a < b] and [a <= b] as the booleans Python computes. *)
Definition Qltb (a b : Q) : bool := negb (Qle_bool b a).
Definition Qleb (a b : Q) : bool := Qle_bool a b.

Infix "<?" := Qltb (at level 70, no associativity) : Q_scope.
Infix "<=?" := Qleb (at level 70, no associativity) : Q_scope.
Infix "=?" := Qeq_bool (at level 70, no associativity) : Q_scope.

(** [int(v)]: truncation toward zero. *)
Definition int (v : Q) : Z := Z.quot (Qnum v) (Zpos (Qden v)).

(** [max(a, b)] and [min(a, b)] of Python return the first argument unless
    the second is strictly larger (smaller). *)
Definition max (a b : Q) : Q := if a <? b then b else a.
Definition min (a b : Q) : Q := if b <? a then b else a.

Definition clamp (v a b : Q) : Q := max a (min b v).

(** ** Data classes *)

Module Bullet.
Record t := mk { x : Q; y : Q; dy : Q; w : Z; h : Z }.

(** [Bullet(x, y)] with the dataclass defaults. *)
Definition new (x y : Q) : t := mk x y (- BULLET_SPEED) BULLET_W BULLET_H.

Definition eqb (a b : t) : bool :=
  (x a =? x b) && (y a =? y b) && (dy a =? dy b) && (w a =? w b)%Z && (h a =? h b)%Z.
End Bullet.

(** The movement of an enemy.  The dataclass keeps an int tag [kind]
    (0 straight, 1 sine, 2 zigzag) and a dict [extra]; [spawn_enemy] is the
    only place that builds an [Enemy] and stores exactly the keys that
    [update] reads for that tag: none for 0, [amp], [freq], [base_x] for 1,
    [hz_speed], [dir], [switch_time], [since_switch] for 2.  Tag and dict
    are kept together here as one variant. *)
Inductive Motion :=
| Straight
| Sine (amp freq base_x : Q)
| Zigzag (hz_speed : Q) (dir : Z) (switch_time since_switch : Q).

Definition kind (m : Motion) : Z :=
  match m with Straight => 0 | Sine _ _ _ => 1 | Zigzag _ _ _ _ => 2 end.

Definition Motion_eqb (a b : Motion) : bool :=
  match a, b with
  | Straight, Straight => true
  | Sine a1 f1 b1, Sine a2 f2 b2 => (a1 =? a2) && (f1 =? f2) && (b1 =? b2)
  | Zigzag s1 d1 t1 c1, Zigzag s2 d2 t2 c2 =>
      (s1 =? s2) && (d1 =? d2)%Z && (t1 =? t2) && (c1 =? c2)
  | _, _ => false
  end.

Module Enemy.
Record t := mk {
  x : Q; y : Q; r : Q; speed : Q;
  extra : Motion;
  spawn_time : Q;
  can_shoot : bool; shoot_timer : Q; shoot_interval : Q }.

Definition eqb (a b : t) : bool :=
  (x a =? x b) && (y a =? y b) && (r a =? r b) && (speed a =? speed b)
  && Motion_eqb (extra a) (extra b) && (spawn_time a =? spawn_time b)
  && Bool.eqb (can_shoot a) (can_shoot b)
  && (shoot_timer a =? shoot_timer b) && (shoot_interval a =? shoot_interval b).

Definition set_pos (x' y' : Q) (m : Motion) (e : t) : t :=
  mk x' y' (r e) (speed e) m (spawn_time e) (can_shoot e) (shoot_timer e) (shoot_interval e).

Definition set_shoot_timer (v : Q) (e : t) : t :=
  mk (x e) (y e) (r e) (speed e) (extra e) (spawn_time e) (can_shoot e) v (shoot_interval e).
End Enemy.

Module EnemyBullet.
Record t := mk { x : Q; y : Q; dx : Q; dy : Q; r : Z }.

Definition eqb (a b : t) : bool :=
  (x a =? x b) && (y a =? y b) && (dx a =? dx b) && (dy a =? dy b) && (r a =? r b)%Z.
End EnemyBullet.

Module PowerUp.
Record t := mk { x : Q; y : Q; kind : string; r : Z }.

(** [PowerUp(x, y, kind)] with the default radius. *)
Definition new (x y : Q) (k : string) : t := mk x y k 10.

Definition eqb (a b : t) : bool :=
  (x a =? x b) && (y a =? y b) && String.eqb (kind a) (kind b) && (r a =? r b)%Z.
End PowerUp.

Module Boss.
Record t := mk {
  x : Q; y : Q; r : Q; hp : Z; vx : Q; shoot_timer : Q; shoot_interval : Q }.
End Boss.

(** [list.remove(v)]: drops the first item equal to [v]; the [ValueError]
    of a missing item is caught at every call site, which leaves the list
    as it is. *)
Fixpoint remove {A : Type} (eqb : A -> A -> bool) (v : A) (l : list A) : list A :=
  match l with
  | [] => []
  | a :: l' => if eqb a v then l' else a :: remove eqb v l'
  end.

(** ** The state of a game

    The attributes that [reset] assigns, then the three pieces of the
    outside world that the methods read or write: [rng] counts the values
    drawn so far from the [random] module, [hs_file] is the highscore stored
    in [highscores.json] ([None] when the file is missing or unreadable) and
    [played] lists the names passed to [play], oldest first. *)
Record Game := {
  player_x : Q; player_y : Q; player_vx : Q;
  keys_left : bool; keys_right : bool;
  bullets : list Bullet.t; bullet_cooldown : Q;
  rapid_fire : bool; rapid_fire_timer : Q;
  spread : bool; spread_timer : Q;
  shield : bool; shield_timer : Q;
  enemies : list Enemy.t;
  enemy_bullets : list EnemyBullet.t;
  powerups : list PowerUp.t;
  spawn_timer : Q; spawn_interval : Q;
  elapsed : Q; score : Q;
  running : bool; game_over : bool;
  boss : option Boss.t;
  highscore : Z;
  rng : nat; hs_file : option Z; played : list string }.

(** Assignment to one attribute. *)
Definition set_keys (l r : bool) (g : Game) : Game :=
  {| player_x := player_x g; player_y := player_y g; player_vx := player_vx g; keys_left := l;
     keys_right := r; bullets := bullets g; bullet_cooldown := bullet_cooldown g;
     rapid_fire := rapid_fire g; rapid_fire_timer := rapid_fire_timer g; spread := spread g;
     spread_timer := spread_timer g; shield := shield g; shield_timer := shield_timer g;
     enemies := enemies g; enemy_bullets := enemy_bullets g; powerups := powerups g;
     spawn_timer := spawn_timer g; spawn_interval := spawn_interval g; elapsed := elapsed g;
     score := score g; running := running g; game_over := game_over g; boss := boss g;
     highscore := highscore g; rng := rng g; hs_file := hs_file g; played := played g |}.

Definition set_player_x (v : Q) (g : Game) : Game :=
  {| player_x := v; player_y := player_y g; player_vx := player_vx g; keys_left := keys_left g;
     keys_right := keys_right g; bullets := bullets g; bullet_cooldown := bullet_cooldown g;
     rapid_fire := rapid_fire g; rapid_fire_timer := rapid_fire_timer g; spread := spread g;
     spread_timer := spread_timer g; shield := shield g; shield_timer := shield_timer g;
     enemies := enemies g; enemy_bullets := enemy_bullets g; powerups := powerups g;
     spawn_timer := spawn_timer g; spawn_interval := spawn_interval g; elapsed := elapsed g;
     score := score g; running := running g; game_over := game_over g; boss := boss g;
     highscore := highscore g; rng := rng g; hs_file := hs_file g; played := played g |}.

Definition set_player_vx (v : Q) (g : Game) : Game :=
  {| player_x := player_x g; player_y := player_y g; player_vx := v; keys_left := keys_left g;
     keys_right := keys_right g; bullets := bullets g; bullet_cooldown := bullet_cooldown g;
     rapid_fire := rapid_fire g; rapid_fire_timer := rapid_fire_timer g; spread := spread g;
     spread_timer := spread_timer g; shield := shield g; shield_timer := shield_timer g;
     enemies := enemies g; enemy_bullets := enemy_bullets g; powerups := powerups g;
     spawn_timer := spawn_timer g; spawn_interval := spawn_interval g; elapsed := elapsed g;
     score := score g; running := running g; game_over := game_over g; boss := boss g;
     highscore := highscore g; rng := rng g; hs_file := hs_file g; played := played g |}.

Definition set_bullets (v : list Bullet.t) (g : Game) : Game :=
  {| player_x := player_x g; player_y := player_y g; player_vx := player_vx g;
     keys_left := keys_left g; keys_right := keys_right g; bullets := v;
     bullet_cooldown := bullet_cooldown g; rapid_fire := rapid_fire g;
     rapid_fire_timer := rapid_fire_timer g; spread := spread g; spread_timer := spread_timer g;
     shield := shield g; shield_timer := shield_timer g; enemies := enemies g;
     enemy_bullets := enemy_bullets g; powerups := powerups g; spawn_timer := spawn_timer g;
     spawn_interval := spawn_interval g; elapsed := elapsed g; score := score g;
     running := running g; game_over := game_over g; boss := boss g; highscore := highscore g;
     rng := rng g; hs_file := hs_file g; played := played g |}.

Definition set_bullet_cooldown (v : Q) (g : Game) : Game :=
  {| player_x := player_x g; player_y := player_y g; player_vx := player_vx g;
     keys_left := keys_left g; keys_right := keys_right g; bullets := bullets g;
     bullet_cooldown := v; rapid_fire := rapid_fire g; rapid_fire_timer := rapid_fire_timer g;
     spread := spread g; spread_timer := spread_timer g; shield := shield g;
     shield_timer := shield_timer g; enemies := enemies g; enemy_bullets := enemy_bullets g;
     powerups := powerups g; spawn_timer := spawn_timer g; spawn_interval := spawn_interval g;
     elapsed := elapsed g; score := score g; running := running g; game_over := game_over g;
     boss := boss g; highscore := highscore g; rng := rng g; hs_file := hs_file g;
     played := played g |}.

Definition set_rapid_fire (v : bool) (g : Game) : Game :=
  {| player_x := player_x g; player_y := player_y g; player_vx := player_vx g;
     keys_left := keys_left g; keys_right := keys_right g; bullets := bullets g;
     bullet_cooldown := bullet_cooldown g; rapid_fire := v;
     rapid_fire_timer := rapid_fire_timer g; spread := spread g; spread_timer := spread_timer g;
     shield := shield g; shield_timer := shield_timer g; enemies := enemies g;
     enemy_bullets := enemy_bullets g; powerups := powerups g; spawn_timer := spawn_timer g;
     spawn_interval := spawn_interval g; elapsed := elapsed g; score := score g;
     running := running g; game_over := game_over g; boss := boss g; highscore := highscore g;
     rng := rng g; hs_file := hs_file g; played := played g |}.

Definition set_rapid_fire_timer (v : Q) (g : Game) : Game :=
  {| player_x := player_x g; player_y := player_y g; player_vx := player_vx g;
     keys_left := keys_left g; keys_right := keys_right g; bullets := bullets g;
     bullet_cooldown := bullet_cooldown g; rapid_fire := rapid_fire g; rapid_fire_timer := v;
     spread := spread g; spread_timer := spread_timer g; shield := shield g;
     shield_timer := shield_timer g; enemies := enemies g; enemy_bullets := enemy_bullets g;
     powerups := powerups g; spawn_timer := spawn_timer g; spawn_interval := spawn_interval g;
     elapsed := elapsed g; score := score g; running := running g; game_over := game_over g;
     boss := boss g; highscore := highscore g; rng := rng g; hs_file := hs_file g;
     played := played g |}.

Definition set_spread (v : bool) (g : Game) : Game :=
  {| player_x := player_x g; player_y := player_y g; player_vx := player_vx g;
     keys_left := keys_left g; keys_right := keys_right g; bullets := bullets g;
     bullet_cooldown := bullet_cooldown g; rapid_fire := rapid_fire g;
     rapid_fire_timer := rapid_fire_timer g; spread := v; spread_timer := spread_timer g;
     shield := shield g; shield_timer := shield_timer g; enemies := enemies g;
     enemy_bullets := enemy_bullets g; powerups := powerups g; spawn_timer := spawn_timer g;
     spawn_interval := spawn_interval g; elapsed := elapsed g; score := score g;
     running := running g; game_over := game_over g; boss := boss g; highscore := highscore g;
     rng := rng g; hs_file := hs_file g; played := played g |}.

Definition set_spread_timer (v : Q) (g : Game) : Game :=
  {| player_x := player_x g; player_y := player_y g; player_vx := player_vx g;
     keys_left := keys_left g; keys_right := keys_right g; bullets := bullets g;
     bullet_cooldown := bullet_cooldown g; rapid_fire := rapid_fire g;
     rapid_fire_timer := rapid_fire_timer g; spread := spread g; spread_timer := v;
     shield := shield g; shield_timer := shield_timer g; enemies := enemies g;
     enemy_bullets := enemy_bullets g; powerups := powerups g; spawn_timer := spawn_timer g;
     spawn_interval := spawn_interval g; elapsed := elapsed g; score := score g;
     running := running g; game_over := game_over g; boss := boss g; highscore := highscore g;
     rng := rng g; hs_file := hs_file g; played := played g |}.

Definition set_shield (v : bool) (g : Game) : Game :=
  {| player_x := player_x g; player_y := player_y g; player_vx := player_vx g;
     keys_left := keys_left g; keys_right := keys_right g; bullets := bullets g;
     bullet_cooldown := bullet_cooldown g; rapid_fire := rapid_fire g;
     rapid_fire_timer := rapid_fire_timer g; spread := spread g; spread_timer := spread_timer g;
     shield := v; shield_timer := shield_timer g; enemies := enemies g;
     enemy_bullets := enemy_bullets g; powerups := powerups g; spawn_timer := spawn_timer g;
     spawn_interval := spawn_interval g; elapsed := elapsed g; score := score g;
     running := running g; game_over := game_over g; boss := boss g; highscore := highscore g;
     rng := rng g; hs_file := hs_file g; played := played g |}.

Definition set_shield_timer (v : Q) (g : Game) : Game :=
  {| player_x := player_x g; player_y := player_y g; player_vx := player_vx g;
     keys_left := keys_left g; keys_right := keys_right g; bullets := bullets g;
     bullet_cooldown := bullet_cooldown g; rapid_fire := rapid_fire g;
     rapid_fire_timer := rapid_fire_timer g; spread := spread g; spread_timer := spread_timer g;
     shield := shield g; shield_timer := v; enemies := enemies g;
     enemy_bullets := enemy_bullets g; powerups := powerups g; spawn_timer := spawn_timer g;
     spawn_interval := spawn_interval g; elapsed := elapsed g; score := score g;
     running := running g; game_over := game_over g; boss := boss g; highscore := highscore g;
     rng := rng g; hs_file := hs_file g; played := played g |}.

Definition set_enemies (v : list Enemy.t) (g : Game) : Game :=
  {| player_x := player_x g; player_y := player_y g; player_vx := player_vx g;
     keys_left := keys_left g; keys_right := keys_right g; bullets := bullets g;
     bullet_cooldown := bullet_cooldown g; rapid_fire := rapid_fire g;
     rapid_fire_timer := rapid_fire_timer g; spread := spread g; spread_timer := spread_timer g;
     shield := shield g; shield_timer := shield_timer g; enemies := v;
     enemy_bullets := enemy_bullets g; powerups := powerups g; spawn_timer := spawn_timer g;
     spawn_interval := spawn_interval g; elapsed := elapsed g; score := score g;
     running := running g; game_over := game_over g; boss := boss g; highscore := highscore g;
     rng := rng g; hs_file := hs_file g; played := played g |}.

Definition set_enemy_bullets (v : list EnemyBullet.t) (g : Game) : Game :=
  {| player_x := player_x g; player_y := player_y g; player_vx := player_vx g;
     keys_left := keys_left g; keys_right := keys_right g; bullets := bullets g;
     bullet_cooldown := bullet_cooldown g; rapid_fire := rapid_fire g;
     rapid_fire_timer := rapid_fire_timer g; spread := spread g; spread_timer := spread_timer g;
     shield := shield g; shield_timer := shield_timer g; enemies := enemies g;
     enemy_bullets := v; powerups := powerups g; spawn_timer := spawn_timer g;
     spawn_interval := spawn_interval g; elapsed := elapsed g; score := score g;
     running := running g; game_over := game_over g; boss := boss g; highscore := highscore g;
     rng := rng g; hs_file := hs_file g; played := played g |}.

Definition set_powerups (v : list PowerUp.t) (g : Game) : Game :=
  {| player_x := player_x g; player_y := player_y g; player_vx := player_vx g;
     keys_left := keys_left g; keys_right := keys_right g; bullets := bullets g;
     bullet_cooldown := bullet_cooldown g; rapid_fire := rapid_fire g;
     rapid_fire_timer := rapid_fire_timer g; spread := spread g; spread_timer := spread_timer g;
     shield := shield g; shield_timer := shield_timer g; enemies := enemies g;
     enemy_bullets := enemy_bullets g; powerups := v; spawn_timer := spawn_timer g;
     spawn_interval := spawn_interval g; elapsed := elapsed g; score := score g;
     running := running g; game_over := game_over g; boss := boss g; highscore := highscore g;
     rng := rng g; hs_file := hs_file g; played := played g |}.

Definition set_spawn_timer (v : Q) (g : Game) : Game :=
  {| player_x := player_x g; player_y := player_y g; player_vx := player_vx g;
     keys_left := keys_left g; keys_right := keys_right g; bullets := bullets g;
     bullet_cooldown := bullet_cooldown g; rapid_fire := rapid_fire g;
     rapid_fire_timer := rapid_fire_timer g; spread := spread g; spread_timer := spread_timer g;
     shield := shield g; shield_timer := shield_timer g; enemies := enemies g;
     enemy_bullets := enemy_bullets g; powerups := powerups g; spawn_timer := v;
     spawn_interval := spawn_interval g; elapsed := elapsed g; score := score g;
     running := running g; game_over := game_over g; boss := boss g; highscore := highscore g;
     rng := rng g; hs_file := hs_file g; played := played g |}.

Definition set_spawn_interval (v : Q) (g : Game) : Game :=
  {| player_x := player_x g; player_y := player_y g; player_vx := player_vx g;
     keys_left := keys_left g; keys_right := keys_right g; bullets := bullets g;
     bullet_cooldown := bullet_cooldown g; rapid_fire := rapid_fire g;
     rapid_fire_timer := rapid_fire_timer g; spread := spread g; spread_timer := spread_timer g;
     shield := shield g; shield_timer := shield_timer g; enemies := enemies g;
     enemy_bullets := enemy_bullets g; powerups := powerups g; spawn_timer := spawn_timer g;
     spawn_interval := v; elapsed := elapsed g; score := score g; running := running g;
     game_over := game_over g; boss := boss g; highscore := highscore g; rng := rng g;
     hs_file := hs_file g; played := played g |}.

Definition set_elapsed (v : Q) (g : Game) : Game :=
  {| player_x := player_x g; player_y := player_y g; player_vx := player_vx g;
     keys_left := keys_left g; keys_right := keys_right g; bullets := bullets g;
     bullet_cooldown := bullet_cooldown g; rapid_fire := rapid_fire g;
     rapid_fire_timer := rapid_fire_timer g; spread := spread g; spread_timer := spread_timer g;
     shield := shield g; shield_timer := shield_timer g; enemies := enemies g;
     enemy_bullets := enemy_bullets g; powerups := powerups g; spawn_timer := spawn_timer g;
     spawn_interval := spawn_interval g; elapsed := v; score := score g; running := running g;
     game_over := game_over g; boss := boss g; highscore := highscore g; rng := rng g;
     hs_file := hs_file g; played := played g |}.

Definition set_score (v : Q) (g : Game) : Game :=
  {| player_x := player_x g; player_y := player_y g; player_vx := player_vx g;
     keys_left := keys_left g; keys_right := keys_right g; bullets := bullets g;
     bullet_cooldown := bullet_cooldown g; rapid_fire := rapid_fire g;
     rapid_fire_timer := rapid_fire_timer g; spread := spread g; spread_timer := spread_timer g;
     shield := shield g; shield_timer := shield_timer g; enemies := enemies g;
     enemy_bullets := enemy_bullets g; powerups := powerups g; spawn_timer := spawn_timer g;
     spawn_interval := spawn_interval g; elapsed := elapsed g; score := v; running := running g;
     game_over := game_over g; boss := boss g; highscore := highscore g; rng := rng g;
     hs_file := hs_file g; played := played g |}.

Definition set_running (v : bool) (g : Game) : Game :=
  {| player_x := player_x g; player_y := player_y g; player_vx := player_vx g;
     keys_left := keys_left g; keys_right := keys_right g; bullets := bullets g;
     bullet_cooldown := bullet_cooldown g; rapid_fire := rapid_fire g;
     rapid_fire_timer := rapid_fire_timer g; spread := spread g; spread_timer := spread_timer g;
     shield := shield g; shield_timer := shield_timer g; enemies := enemies g;
     enemy_bullets := enemy_bullets g; powerups := powerups g; spawn_timer := spawn_timer g;
     spawn_interval := spawn_interval g; elapsed := elapsed g; score := score g; running := v;
     game_over := game_over g; boss := boss g; highscore := highscore g; rng := rng g;
     hs_file := hs_file g; played := played g |}.

Definition set_game_over (v : bool) (g : Game) : Game :=
  {| player_x := player_x g; player_y := player_y g; player_vx := player_vx g;
     keys_left := keys_left g; keys_right := keys_right g; bullets := bullets g;
     bullet_cooldown := bullet_cooldown g; rapid_fire := rapid_fire g;
     rapid_fire_timer := rapid_fire_timer g; spread := spread g; spread_timer := spread_timer g;
     shield := shield g; shield_timer := shield_timer g; enemies := enemies g;
     enemy_bullets := enemy_bullets g; powerups := powerups g; spawn_timer := spawn_timer g;
     spawn_interval := spawn_interval g; elapsed := elapsed g; score := score g;
     running := running g; game_over := v; boss := boss g; highscore := highscore g;
     rng := rng g; hs_file := hs_file g; played := played g |}.

Definition set_boss (v : option Boss.t) (g : Game) : Game :=
  {| player_x := player_x g; player_y := player_y g; player_vx := player_vx g;
     keys_left := keys_left g; keys_right := keys_right g; bullets := bullets g;
     bullet_cooldown := bullet_cooldown g; rapid_fire := rapid_fire g;
     rapid_fire_timer := rapid_fire_timer g; spread := spread g; spread_timer := spread_timer g;
     shield := shield g; shield_timer := shield_timer g; enemies := enemies g;
     enemy_bullets := enemy_bullets g; powerups := powerups g; spawn_timer := spawn_timer g;
     spawn_interval := spawn_interval g; elapsed := elapsed g; score := score g;
     running := running g; game_over := game_over g; boss := v; highscore := highscore g;
     rng := rng g; hs_file := hs_file g; played := played g |}.

Definition set_rng (v : nat) (g : Game) : Game :=
  {| player_x := player_x g; player_y := player_y g; player_vx := player_vx g;
     keys_left := keys_left g; keys_right := keys_right g; bullets := bullets g;
     bullet_cooldown := bullet_cooldown g; rapid_fire := rapid_fire g;
     rapid_fire_timer := rapid_fire_timer g; spread := spread g; spread_timer := spread_timer g;
     shield := shield g; shield_timer := shield_timer g; enemies := enemies g;
     enemy_bullets := enemy_bullets g; powerups := powerups g; spawn_timer := spawn_timer g;
     spawn_interval := spawn_interval g; elapsed := elapsed g; score := score g;
     running := running g; game_over := game_over g; boss := boss g; highscore := highscore g;
     rng := v; hs_file := hs_file g; played := played g |}.

Definition set_hs_file (v : option Z) (g : Game) : Game :=
  {| player_x := player_x g; player_y := player_y g; player_vx := player_vx g;
     keys_left := keys_left g; keys_right := keys_right g; bullets := bullets g;
     bullet_cooldown := bullet_cooldown g; rapid_fire := rapid_fire g;
     rapid_fire_timer := rapid_fire_timer g; spread := spread g; spread_timer := spread_timer g;
     shield := shield g; shield_timer := shield_timer g; enemies := enemies g;
     enemy_bullets := enemy_bullets g; powerups := powerups g; spawn_timer := spawn_timer g;
     spawn_interval := spawn_interval g; elapsed := elapsed g; score := score g;
     running := running g; game_over := game_over g; boss := boss g; highscore := highscore g;
     rng := rng g; hs_file := v; played := played g |}.

Definition set_played (v : list string) (g : Game) : Game :=
  {| player_x := player_x g; player_y := player_y g; player_vx := player_vx g;
     keys_left := keys_left g; keys_right := keys_right g; bullets := bullets g;
     bullet_cooldown := bullet_cooldown g; rapid_fire := rapid_fire g;
     rapid_fire_timer := rapid_fire_timer g; spread := spread g; spread_timer := spread_timer g;
     shield := shield g; shield_timer := shield_timer g; enemies := enemies g;
     enemy_bullets := enemy_bullets g; powerups := powerups g; spawn_timer := spawn_timer g;
     spawn_interval := spawn_interval g; elapsed := elapsed g; score := score g;
     running := running g; game_over := game_over g; boss := boss g; highscore := highscore g;
     rng := rng g; hs_file := hs_file g; played := v |}.

(** [self.play(name)]: the request is recorded; whether a sound exists or
    plays has no effect on the game. *)
Definition play (name : string) (g : Game) : Game := set_played (played g ++ [name]) g.

(** ** The outside world *)

(** [m_sin], [m_cos], [m_hypot]: the functions of the [math] module on the
    numbers of the model.  [rnd n]: the value in [0, 1) behind the [n]-th
    draw from the [random] module. *)
Record Env := {
  m_sin : Q -> Q;
  m_cos : Q -> Q;
  m_hypot : Q -> Q -> Q;
  rnd : nat -> Q }.

(** [math.pi] as Python prints it. *)
Definition math_pi : Q := 3.141592653589793.

(** Code that draws random values: from the number of values drawn so far
    to a result and the new number. *)
Definition Rand (A : Type) : Type := nat -> A * nat.

Definition ret {A : Type} (a : A) : Rand A := fun n => (a, n).

Definition bind {A B : Type} (c : Rand A) (k : A -> Rand B) : Rand B :=
  fun n => let (a, n') := c n in k a n'.

Notation "x <- c ;; k" := (bind c (fun x => k))
  (at level 61, c at next level, right associativity).

Section Simulation.

Context (env : Env).

(** *** The [random] module *)

(** [random.random()] *)
Definition random : Rand Q := fun n => (rnd env n, S n).

(** [random.uniform(a, b)], which is [a + (b - a) * random()]. *)
Definition uniform (a b : Q) : Rand Q :=
  u <- random ;; ret (a + (b - a) * u).

(** [random.choice(seq)]: each item of [seq] takes an equal share of
    [0, 1). *)
Definition choice {A : Type} (seq : list A) (d : A) : Rand A :=
  u <- random ;;
  ret (nth (Z.to_nat (Qfloor (u * inject_Z (Z.of_nat (List.length seq))))) seq d).

(** [random.choices([0, 1, 2], weights=[45, 35, 20])[0]]: the cumulative
    weights 45, 80, 100 are bisected at [random() * 100]. *)
Definition choices_kind : Rand Z :=
  u <- random ;;
  ret (if u * 100 <? 45 then 0%Z else if u * 100 <? 80 then 1%Z else 2%Z).

(** *** [reset], [load_highscore], [save_highscore] *)

Definition load_highscore (g : Game) : Z :=
  match hs_file g with Some v => v | None => 0%Z end.

Definition save_highscore (g : Game) : Game :=
  let prev := load_highscore g in
  if (prev <? int (score g))%Z then set_hs_file (Some (int (score g))) g else g.

Definition reset (g : Game) : Game :=
  {| player_x := SCREEN_W / 2;
     player_y := PLAYER_Y;
     player_vx := 0;
     keys_left := false; keys_right := false;
     bullets := [];
     bullet_cooldown := 0;
     rapid_fire := false;
     rapid_fire_timer := 0;
     spread := false;
     spread_timer := 0;
     shield := false;
     shield_timer := 0;
     enemies := [];
     enemy_bullets := [];
     powerups := [];
     spawn_timer := 0;
     spawn_interval := ENEMY_SPAWN_INTERVAL_START;
     elapsed := 0;
     score := 0;
     running := true;
     game_over := false;
     boss := None;
     highscore := load_highscore g;
     rng := rng g; hs_file := hs_file g; played := played g |}.

(** *** Spawners *)

Definition draw_extra (k : Z) (x : Q) : Rand Motion :=
  if (k =? 1)%Z then
    amp <- uniform 30 90 ;;
    freq <- uniform 0.8 1.6 ;;
    ret (Sine amp freq x)
  else if (k =? 2)%Z then
    hz_speed <- uniform 50 120 ;;
    dir <- choice [(-1)%Z; 1%Z] 1%Z ;;
    switch_time <- uniform 0.35 0.9 ;;
    ret (Zigzag hz_speed dir switch_time 0)
  else ret Straight.

(** [random.random() < 0.35 or (self.elapsed > 30 and random.random() < 0.5)]:
    the second value is drawn only when the first test fails and more than
    30 seconds have elapsed. *)
Definition draw_can_shoot (elapsed : Q) : Rand bool :=
  u <- random ;;
  if u <? 0.35 then ret true
  else if 30 <? elapsed then (u' <- random ;; ret (u' <? 0.5))
  else ret false.

Definition draw_enemy (elapsed : Q) : Rand Enemy.t :=
  size <- uniform 14 38 ;;
  x <- uniform (size / 2) (SCREEN_W - size / 2) ;;
  speed <- uniform ENEMY_MIN_SPEED ENEMY_MAX_SPEED ;;
  k <- choices_kind ;;
  extra <- draw_extra k x ;;
  can_shoot <- draw_can_shoot elapsed ;;
  shoot_interval <- uniform 1 3 ;;
  ret (Enemy.mk x (- size) (size / 2) speed extra elapsed can_shoot 0 shoot_interval).

Definition spawn_enemy (g : Game) : Game :=
  let (e, n) := draw_enemy (elapsed g) (rng g) in
  set_rng n (set_enemies (enemies g ++ [e]) g).

Definition spawn_powerup (x y : Q) (g : Game) : Game :=
  let (k, n) := choice ["rapid"; "shield"; "spread"]%string "rapid"%string (rng g) in
  set_rng n (set_powerups (powerups g ++ [PowerUp.new x y k]) g).

Definition new_boss : Boss.t := Boss.mk (SCREEN_W / 2) (-80) 60 18 60 0 1.

Definition spawn_boss (g : Game) : Game :=
  match boss g with
  | Some _ => g
  | None => set_boss (Some new_boss) g
  end.

(** *** [fire_bullet] *)

Definition fire_bullet (g : Game) : Game :=
  if 0 <? bullet_cooldown g then g
  else
    let cooldown := PLAYER_COOLDOWN * (if rapid_fire g then 0.4 else 1) in
    let nose := player_y g - PLAYER_H / 2 in
    let g1 :=
      if spread g then
        set_bullets (bullets g ++ map (fun off => Bullet.new (player_x g + off) nose) [-8; 0; 8]) g
      else set_bullets (bullets g ++ [Bullet.new (player_x g) nose]) g in
    play "shoot"%string (set_bullet_cooldown cooldown g1).

(** *** [update]: spawning, player, timers *)

(** "Spawn regular enemies until boss appears" *)
Definition spawn_regular (dt : Q) (g : Game) : Game :=
  match boss g with
  | None =>
      if score g <? BOSS_APPEAR_SCORE then
        let g1 := set_spawn_timer (spawn_timer g + dt) g in
        let g2 :=
          set_spawn_interval
            (max ENEMY_SPAWN_INTERVAL_MIN (ENEMY_SPAWN_INTERVAL_START - elapsed g1 / 60)) g1 in
        if spawn_interval g2 <=? spawn_timer g2 then spawn_enemy (set_spawn_timer 0 g2)
        else g2
      else g
  | Some _ => g
  end.

(** "if score threshold reached spawn boss" *)
Definition boss_threshold (g : Game) : Game :=
  match boss g with
  | None => if BOSS_APPEAR_SCORE <=? score g then spawn_boss g else g
  | Some _ => g
  end.

(** "Player movement" *)
Definition player_movement (dt difficulty_mul : Q) (g : Game) : Game :=
  let dir_x := (if keys_left g then -1 else 0) + (if keys_right g then 1 else 0) in
  let g1 := set_player_vx (dir_x * PLAYER_SPEED * difficulty_mul) g in
  let g2 := set_player_x (player_x g1 + player_vx g1 * dt) g1 in
  set_player_x (clamp (player_x g2) (PLAYER_W / 2) (SCREEN_W - PLAYER_W / 2)) g2.

(** "Timers for power-ups" *)
Definition rapid_fire_tick (dt : Q) (g : Game) : Game :=
  if rapid_fire g then
    let g1 := set_rapid_fire_timer (rapid_fire_timer g - dt) g in
    if rapid_fire_timer g1 <=? 0 then set_rapid_fire false g1 else g1
  else g.

Definition spread_tick (dt : Q) (g : Game) : Game :=
  if spread g then
    let g1 := set_spread_timer (spread_timer g - dt) g in
    if spread_timer g1 <=? 0 then set_spread false g1 else g1
  else g.

Definition shield_tick (dt : Q) (g : Game) : Game :=
  if shield g then
    let g1 := set_shield_timer (shield_timer g - dt) g in
    if shield_timer g1 <=? 0 then set_shield false g1 else g1
  else g.

Definition powerup_timers (dt : Q) (g : Game) : Game :=
  shield_tick dt (spread_tick dt (rapid_fire_tick dt g)).

(** *** [update]: motion

    Each of these loops walks a copy of a list, changes the item in place
    and removes it from the list when it has left the screen.  [remove]
    takes out the first item equal to the one at hand; the items before it
    were kept, so they fail the test that it passes, and the item removed is
    the one at hand. *)

(** "Update bullets" *)
Definition move_bullet (dt : Q) (b : Bullet.t) : Bullet.t :=
  Bullet.mk (Bullet.x b) (Bullet.y b + Bullet.dy b * dt) (Bullet.dy b) (Bullet.w b) (Bullet.h b).

Fixpoint bullets_loop (dt : Q) (bs : list Bullet.t) : list Bullet.t :=
  match bs with
  | [] => []
  | b :: rest =>
      let b' := move_bullet dt b in
      if Bullet.y b' + inject_Z (Bullet.h b') <? 0 then bullets_loop dt rest
      else b' :: bullets_loop dt rest
  end.

Definition update_bullets (dt : Q) (g : Game) : Game :=
  set_bullets (bullets_loop dt (bullets g)) g.

(** "Enemy bullets" *)
Definition move_enemy_bullet (dt : Q) (eb : EnemyBullet.t) : EnemyBullet.t :=
  EnemyBullet.mk (EnemyBullet.x eb + EnemyBullet.dx eb * dt)
                 (EnemyBullet.y eb + EnemyBullet.dy eb * dt)
                 (EnemyBullet.dx eb) (EnemyBullet.dy eb) (EnemyBullet.r eb).

Definition enemy_bullet_gone (eb : EnemyBullet.t) : bool :=
  (SCREEN_H <? EnemyBullet.y eb - inject_Z (EnemyBullet.r eb))
  || (EnemyBullet.x eb <? -20)
  || (SCREEN_W + 20 <? EnemyBullet.x eb).

Fixpoint enemy_bullets_loop (dt : Q) (ebs : list EnemyBullet.t) : list EnemyBullet.t :=
  match ebs with
  | [] => []
  | eb :: rest =>
      let eb' := move_enemy_bullet dt eb in
      if enemy_bullet_gone eb' then enemy_bullets_loop dt rest
      else eb' :: enemy_bullets_loop dt rest
  end.

Definition update_enemy_bullets (dt : Q) (g : Game) : Game :=
  set_enemy_bullets (enemy_bullets_loop dt (enemy_bullets g)) g.

(** "Update enemies": the three movements *)
Definition move_enemy (elapsed dt difficulty_mul : Q) (e : Enemy.t) : Enemy.t :=
  let y' := Enemy.y e + Enemy.speed e * difficulty_mul * dt in
  match Enemy.extra e with
  | Straight => Enemy.set_pos (Enemy.x e) y' Straight e
  | Sine amp freq base_x =>
      let t := elapsed - Enemy.spawn_time e in
      let x1 := base_x + m_sin env (t * freq * 2 * math_pi) * amp in
      let x2 := clamp x1 (Enemy.r e) (SCREEN_W - Enemy.r e) in
      Enemy.set_pos x2 y' (Sine amp freq base_x) e
  | Zigzag hz_speed dir switch_time since_switch =>
      let since1 := since_switch + dt in
      let '(since2, dir2) :=
        if switch_time <=? since1 then (0, (dir * -1)%Z) else (since1, dir) in
      let x1 := Enemy.x e + inject_Z dir2 * hz_speed * dt in
      let '(x2, dir3, since3) :=
        if x1 <? Enemy.r e then (Enemy.r e, (dir2 * -1)%Z, 0) else (x1, dir2, since2) in
      let '(x3, dir4, since4) :=
        if SCREEN_W - Enemy.r e <? x2 then (SCREEN_W - Enemy.r e, (dir3 * -1)%Z, 0)
        else (x2, dir3, since3) in
      Enemy.set_pos x3 y' (Zigzag hz_speed dir4 switch_time since4) e
  end.

(** "shooting" *)
Definition enemy_shoot (dt : Q) (e : Enemy.t) (g : Game) : Enemy.t * Game :=
  if Enemy.can_shoot e then
    let e1 := Enemy.set_shoot_timer (Enemy.shoot_timer e + dt) e in
    if Enemy.shoot_interval e1 <=? Enemy.shoot_timer e1 then
      let e2 := Enemy.set_shoot_timer 0 e1 in
      let dx := player_x g - Enemy.x e2 in
      let dy := player_y g - Enemy.y e2 in
      let hyp := m_hypot env dx dy in
      let dist := if hyp =? 0 then 1 else hyp in
      let (u, n) := uniform (-30) 60 (rng g) in
      let speed := 180 + u in
      let eb := EnemyBullet.mk (Enemy.x e2) (Enemy.y e2 + Enemy.r e2)
                               (dx / dist * speed) (dy / dist * speed) 5 in
      (e2, set_rng n (set_enemy_bullets (enemy_bullets g ++ [eb]) g))
    else (e1, g)
  else (e, g).

Fixpoint enemies_loop (dt difficulty_mul : Q) (es : list Enemy.t) (g : Game)
  : list Enemy.t * Game :=
  match es with
  | [] => ([], g)
  | e :: rest =>
      let e1 := move_enemy (elapsed g) dt difficulty_mul e in
      let (e2, g1) := enemy_shoot dt e1 g in
      let (rest', g2) := enemies_loop dt difficulty_mul rest g1 in
      (if SCREEN_H <? Enemy.y e2 - Enemy.r e2 then rest' else e2 :: rest', g2)
  end.

Definition update_enemies (dt difficulty_mul : Q) (g : Game) : Game :=
  let (es, g') := enemies_loop dt difficulty_mul (enemies g) g in
  set_enemies es g'.

(** "boss behavior" *)
Definition boss_fan (bo : Boss.t) : list EnemyBullet.t :=
  map (fun angle =>
         let speed := 200 in
         EnemyBullet.mk (Boss.x bo) (Boss.y bo + Boss.r bo - 6)
                        (m_sin env angle * speed) (m_cos env angle * speed) 4)
      [-0.5; -0.25; 0; 0.25; 0.5].

Definition boss_behavior (dt : Q) (g : Game) : Game :=
  match boss g with
  | None => g
  | Some bo =>
      if Boss.y bo <? 80 then
        set_boss (Some (Boss.mk (Boss.x bo) (Boss.y bo + 40 * dt) (Boss.r bo) (Boss.hp bo)
                                (Boss.vx bo) (Boss.shoot_timer bo) (Boss.shoot_interval bo))) g
      else
        let x' := Boss.x bo + Boss.vx bo * dt in
        let vx' :=
          if (x' <? Boss.r bo) || (SCREEN_W - Boss.r bo <? x') then Boss.vx bo * -1
          else Boss.vx bo in
        let timer := Boss.shoot_timer bo + dt in
        let bo1 := Boss.mk x' (Boss.y bo) (Boss.r bo) (Boss.hp bo) vx' timer
                           (Boss.shoot_interval bo) in
        if Boss.shoot_interval bo1 <=? Boss.shoot_timer bo1 then
          let bo2 := Boss.mk x' (Boss.y bo) (Boss.r bo) (Boss.hp bo) vx' 0
                             (Boss.shoot_interval bo) in
          set_enemy_bullets (enemy_bullets g ++ boss_fan bo2) (set_boss (Some bo2) g)
        else set_boss (Some bo1) g
  end.

(** *** [update]: collisions *)

(** The test of a player bullet against an enemy: the bullet's position
    is clamped to the square around the enemy. *)
Definition bullet_hits_enemy (b : Bullet.t) (e : Enemy.t) : bool :=
  let closest_x := clamp (Bullet.x b) (Enemy.x e - Enemy.r e) (Enemy.x e + Enemy.r e) in
  let closest_y := clamp (Bullet.y b) (Enemy.y e - Enemy.r e) (Enemy.y e + Enemy.r e) in
  let dx := Bullet.x b - closest_x in
  let dy := Bullet.y b - closest_y in
  dx * dx + dy * dy <=? Enemy.r e * Enemy.r e.

Definition bullet_hits_boss (b : Bullet.t) (bo : Boss.t) : bool :=
  let dx := Bullet.x b - Boss.x bo in
  let dy := Bullet.y b - Boss.y bo in
  dx * dx + dy * dy <=? Boss.r bo * Boss.r bo.

(** The body of the inner loop at the first enemy [e] that the bullet [b]
    hits, up to the [break]. *)
Definition destroy_enemy (b : Bullet.t) (e : Enemy.t) (g : Game) : Game :=
  let g1 := set_enemies (remove Enemy.eqb e (enemies g)) g in
  let g2 := set_bullets (remove Bullet.eqb b (bullets g1)) g1 in
  let g3 := set_score (score g2 + inject_Z (10 + int (Enemy.r e))) g2 in
  let g4 := play "explode"%string g3 in
  let (u, n) := random (rng g4) in
  let g5 := set_rng n g4 in
  if u <? POWERUP_SPAWN_CHANCE then spawn_powerup (Enemy.x e) (Enemy.y e) g5 else g5.

(** The test of a bullet that hit no enemy against the boss. *)
Definition hit_boss (b : Bullet.t) (g : Game) : Game :=
  match boss g with
  | None => g
  | Some bo =>
      if bullet_hits_boss b bo then
        let g1 := set_bullets (remove Bullet.eqb b (bullets g)) g in
        let bo' := Boss.mk (Boss.x bo) (Boss.y bo) (Boss.r bo) (Boss.hp bo - 1) (Boss.vx bo)
                           (Boss.shoot_timer bo) (Boss.shoot_interval bo) in
        let g2 := play "hit"%string (set_boss (Some bo') g1) in
        let g3 := set_score (score g2 + 15) g2 in
        if (Boss.hp bo' <=? 0)%Z then
          set_boss None (play "explode"%string (set_score (score g3 + 200) g3))
        else g3
      else g
  end.

(** One pass of the outer loop: [for e in self.enemies[:]] stops at the
    first enemy hit; the boss is tried only when there is none. *)
Definition bullet_step (b : Bullet.t) (g : Game) : Game :=
  match find (bullet_hits_enemy b) (enemies g) with
  | Some e => destroy_enemy b e g
  | None => hit_boss b g
  end.

(** "Collisions: bullets vs enemies", over [self.bullets[:]] *)
Definition bullets_vs_enemies (g : Game) : Game :=
  fold_left (fun g' b => bullet_step b g') (bullets g) g.

(** [pygame.Rect(left, top, width, height)] *)
Record Rect := { left : Z; top : Z; width : Z; height : Z }.
Definition right (rc : Rect) : Z := (left rc + width rc)%Z.
Definition bottom (rc : Rect) : Z := (top rc + height rc)%Z.

Definition player_rect (g : Game) : Rect :=
  {| left := int (player_x g - PLAYER_W / 2);
     top := int (player_y g - PLAYER_H / 2);
     width := int PLAYER_W;
     height := int PLAYER_H |}.

(** The test of a circle at [(x, y)] of radius [r] against a rectangle. *)
Definition circle_hits_rect (x y r : Q) (rc : Rect) : bool :=
  let closest_x := clamp x (inject_Z (left rc)) (inject_Z (right rc)) in
  let closest_y := clamp y (inject_Z (top rc)) (inject_Z (bottom rc)) in
  let dx := x - closest_x in
  let dy := y - closest_y in
  dx * dx + dy * dy <=? r * r.

Definition enemy_bullet_hits (rc : Rect) (eb : EnemyBullet.t) : bool :=
  circle_hits_rect (EnemyBullet.x eb) (EnemyBullet.y eb) (inject_Z (EnemyBullet.r eb)) rc.

Definition enemy_hits (rc : Rect) (e : Enemy.t) : bool :=
  circle_hits_rect (Enemy.x e) (Enemy.y e) (Enemy.r e) rc.

(** How a part of [update] ends: it falls through to the next statement,
    or it executes [return]. *)
Inductive Flow :=
| Next (g : Game)
| Return (g : Game).

(** The four statements of both game-over branches. *)
Definition die (g : Game) : Game :=
  save_highscore (set_running false (set_game_over true (play "explode"%string g))).

(** "Collisions: enemy bullets vs player", over a copy [ebs] of
    [self.enemy_bullets] *)
Fixpoint enemy_bullets_vs_player (rc : Rect) (ebs : list EnemyBullet.t) (g : Game) : Flow :=
  match ebs with
  | [] => Next g
  | eb :: rest =>
      if enemy_bullet_hits rc eb then
        let g1 := set_enemy_bullets (remove EnemyBullet.eqb eb (enemy_bullets g)) g in
        if shield g1 then
          enemy_bullets_vs_player rc rest (play "power"%string (set_shield false g1))
        else Return (die g1)
      else enemy_bullets_vs_player rc rest g
  end.

(** "Collision: enemies vs player (touch)", over a copy [es] of
    [self.enemies] *)
Fixpoint enemies_vs_player (rc : Rect) (es : list Enemy.t) (g : Game) : Flow :=
  match es with
  | [] => Next g
  | e :: rest =>
      if enemy_hits rc e then
        if shield g then
          let g1 := set_shield false g in
          let g2 := set_enemies (remove Enemy.eqb e (enemies g1)) g1 in
          let g3 := play "explode"%string g2 in
          enemies_vs_player rc rest (set_score (score g3 + 5) g3)
        else Return (die g)
      else enemies_vs_player rc rest g
  end.

(** "Powerup collection" *)
Definition powerup_in_reach (g : Game) (p : PowerUp.t) : bool :=
  let dx := PowerUp.x p - player_x g in
  let dy := PowerUp.y p - player_y g in
  dx * dx + dy * dy
    <=? (inject_Z (PowerUp.r p) + PLAYER_W / 2) * (inject_Z (PowerUp.r p) + PLAYER_W / 2).

Definition apply_powerup (k : string) (g : Game) : Game :=
  if String.eqb k "rapid" then set_rapid_fire_timer POWERUP_DURATION (set_rapid_fire true g)
  else if String.eqb k "shield" then set_shield_timer POWERUP_DURATION (set_shield true g)
  else if String.eqb k "spread" then set_spread_timer POWERUP_DURATION (set_spread true g)
  else g.

Definition collect_step (g : Game) (p : PowerUp.t) : Game :=
  if powerup_in_reach g p then
    let g1 := play "power"%string (apply_powerup (PowerUp.kind p) g) in
    set_powerups (remove PowerUp.eqb p (powerups g1)) g1
  else g.

Definition powerup_collection (g : Game) : Game :=
  fold_left collect_step (powerups g) g.

(** "Powerup falling" *)
Fixpoint powerups_loop (dt : Q) (ps : list PowerUp.t) : list PowerUp.t :=
  match ps with
  | [] => []
  | p :: rest =>
      let p' := PowerUp.mk (PowerUp.x p) (PowerUp.y p + 90 * dt) (PowerUp.kind p)
                           (PowerUp.r p) in
      if SCREEN_H <? PowerUp.y p' - inject_Z (PowerUp.r p') then powerups_loop dt rest
      else p' :: powerups_loop dt rest
  end.

Definition powerup_falling (dt : Q) (g : Game) : Game :=
  set_powerups (powerups_loop dt (powerups g)) g.

(** *** [update] *)

Definition difficulty_mul (g : Game) : Q := 1 + elapsed g / 60.

(** [self.elapsed += dt] *)
Definition advance_clock (dt : Q) (g : Game) : Game := set_elapsed (elapsed g + dt) g.

(** [update] from "Spawn regular enemies" to the end of "boss behavior";
    [mul] is the local [difficulty_mul]. *)
Definition motion (dt mul : Q) (g : Game) : Game :=
  let g := spawn_regular dt g in
  let g := boss_threshold g in
  let g := player_movement dt mul g in
  let g := powerup_timers dt g in
  let g := update_bullets dt g in
  let g := update_enemy_bullets dt g in
  let g := update_enemies dt mul g in
  boss_behavior dt g.

(** "Score increases slowly over time" *)
Definition passive_score (dt mul : Q) (g : Game) : Game :=
  set_score (score g + dt * 5 * mul) g.

(** [update] from "Collisions: enemy bullets vs player" to the end;
    [mul] is the local [difficulty_mul]. *)
Definition after_bullets (dt mul : Q) (g : Game) : Game :=
  let rc := player_rect g in
  match enemy_bullets_vs_player rc (enemy_bullets g) g with
  | Return g' => g'
  | Next g =>
      match enemies_vs_player rc (enemies g) g with
      | Return g' => g'
      | Next g =>
          let g := powerup_collection g in
          let g := powerup_falling dt g in
          passive_score dt mul g
      end
  end.

Definition update (dt : Q) (g : Game) : Game :=
  if negb (running g) then g
  else if game_over g then g
  else
    let g := advance_clock dt g in
    let mul := difficulty_mul g in
    after_bullets dt mul (bullets_vs_enemies (motion dt mul g)).

(** *** One pass of the loop of [run] *)

Inductive Event :=
| KeyDownLeft | KeyDownRight | KeyDownSpace | KeyDownR
| KeyUpLeft | KeyUpRight
| MouseButtonDown.

Definition handle_event (g : Game) (ev : Event) : Game :=
  match ev with
  | KeyDownLeft => set_keys true (keys_right g) g
  | KeyDownRight => set_keys (keys_left g) true g
  | KeyDownSpace => if negb (game_over g) then fire_bullet g else g
  | KeyDownR => reset g
  | KeyUpLeft => set_keys false (keys_right g) g
  | KeyUpRight => set_keys (keys_left g) false g
  | MouseButtonDown => if game_over g then reset g else g
  end.

(** "continuous firing"; [space] tells whether the key is held. *)
Definition continuous_firing (space : bool) (g : Game) : Game :=
  if space then (if negb (game_over g) then fire_bullet g else g) else g.

(** "cooldown tick" *)
Definition cooldown_tick (dt : Q) (g : Game) : Game :=
  set_bullet_cooldown (max 0 (bullet_cooldown g - dt)) g.

(** The body of [while True] for a frame of [dt] seconds with the events
    [evs] (the events that end the process are left out). *)
Definition frame (dt : Q) (evs : list Event) (space : bool) (g : Game) : Game :=
  let g := fold_left handle_event evs g in
  let g := continuous_firing space g in
  let g := cooldown_tick dt g in
  update dt g.

End Simulation.

(** ** Runs of the program *)

(** The input of one frame: its duration, the events polled and whether
    the space key is held. *)
Record FrameInput := { f_dt : Q; f_events : list Event; f_space : bool }.

Definition run_frame (env : Env) (g : Game) (f : FrameInput) : Game :=
  frame env (f_dt f) (f_events f) (f_space f) g.

Definition run_frames (env : Env) (fs : list FrameInput) (g : Game) : Game :=
  fold_left (run_frame env) fs g.

(** The states the program can be in: [__init__] ends with [reset()],
    whatever the outside world is; then come the calls that [run] makes,
    in any order, with frame durations that are never negative. *)
Inductive reachable (env : Env) : Game -> Prop :=
| reach_reset : forall g, reachable env (reset g)
| reach_update : forall g dt, reachable env g -> 0 <= dt -> reachable env (update env dt g)
| reach_fire : forall g, reachable env g -> reachable env (fire_bullet g)
| reach_keys : forall g l r, reachable env g -> reachable env (set_keys l r g)
| reach_cooldown : forall g dt,
    reachable env g -> 0 <= dt -> reachable env (cooldown_tick dt g).

(** [update] is live when it passes its two guards. *)
Definition live (g : Game) : bool := running g && negb (game_over g).

(** The state of [update dt g] when "Collisions: bullets vs enemies"
    begins. *)
Definition at_collisions (env : Env) (dt : Q) (g : Game) : Game :=
  let g0 := advance_clock dt g in
  motion env dt (difficulty_mul g0) g0.





(** [update] from "Timers for power-ups" to its end. *)
Definition after_movement (env : Env) (dt mul : Q) (g : Game) : Game :=
  after_bullets dt mul
    (bullets_vs_enemies env
       (boss_behavior env dt
          (update_enemies env dt mul
             (update_enemy_bullets dt (update_bullets dt (powerup_timers dt g)))))).

(** The attributes that nothing after "Player movement" assigns. *)
Definition helm (g : Game) :=
  (player_x g, player_y g, player_vx g, keys_left g, keys_right g, bullet_cooldown g,
   elapsed g, spawn_timer g, spawn_interval g, highscore g).

(** The game that comes out of a part of [update], however it ends. *)
Definition flow_game (f : Flow) : Game :=
  match f with Next g => g | Return g => g end.

(** What "Spawn regular enemies" and the boss threshold leave alone. *)
Definition deck (g : Game) :=
  (player_x g, player_y g, player_vx g, keys_left g, keys_right g,
   (bullets g, bullet_cooldown g),
   (rapid_fire g, rapid_fire_timer g, spread g, spread_timer g, shield g, shield_timer g),
   (enemy_bullets g, powerups g),
   (elapsed g, score g),
   (running g, game_over g, highscore g, hs_file g, played g)).

(** What "Collisions: enemy bullets vs player" leaves alone as long as it
    does not end the game: everything but the enemy bullets, the shield
    flag and the sounds. *)
Definition beyond_enemy_bullets (g : Game) :=
  (helm g, bullets g,
   (rapid_fire g, rapid_fire_timer g, spread g, spread_timer g, shield_timer g),
   (enemies g, powerups g, boss g),
   (score g, rng g)).

(** The state of [update dt g] when "Collisions: enemy bullets vs player"
    begins. *)
Definition at_player_hits (env : Env) (dt : Q) (g : Game) : Game :=
  bullets_vs_enemies env (at_collisions env dt g).

(** What the loop over the enemies leaves alone in the game. *)
Definition off_enemies (g : Game) :=
  (rapid_fire g, rapid_fire_timer g, spread g, spread_timer g, shield g, shield_timer g,
   (spawn_timer g, spawn_interval g, boss g, bullet_cooldown g),
   (bullets g, powerups g, score g, played g),
   (elapsed g, running g, game_over g)).

(** The number of "explode" sounds requested so far. *)
Definition explosions (g : Game) : nat :=
  List.length (filter (String.eqb "explode") (played g)).

(** What the pickup and the fall of the power-ups leave alone. *)
Definition arena (g : Game) :=
  (enemies g, bullets g, score g, boss g, explosions g).

(** The attributes of the simulation, the highscore left out. *)
Definition simulation (g : Game) :=
  (player_x g, player_y g, player_vx g, keys_left g, keys_right g,
   (bullets g, bullet_cooldown g),
   (rapid_fire g, rapid_fire_timer g, spread g, spread_timer g, shield g, shield_timer g),
   (enemies g, enemy_bullets g, powerups g, boss g),
   (spawn_timer g, spawn_interval g, elapsed g, score g),
   (running g, game_over g)).

(** The timers: the countdown of an active effect is positive, and the
    spawn timer and interval, the shoot timers and intervals and the fire
    cooldown are not negative. *)
Definition shooter_ok (e : Enemy.t) : Prop :=
  0 <= Enemy.shoot_timer e /\ 0 <= Enemy.shoot_interval e.

Definition boss_ok (bo : Boss.t) : Prop :=
  0 <= Boss.shoot_timer bo /\ 0 <= Boss.shoot_interval bo.

Record timers_ok (g : Game) : Prop := {
  rapid_fire_ok : rapid_fire g = true -> 0 < rapid_fire_timer g;
  spread_ok : spread g = true -> 0 < spread_timer g;
  shield_ok : shield g = true -> 0 < shield_timer g;
  spawn_timer_ok : 0 <= spawn_timer g;
  spawn_interval_ok : ENEMY_SPAWN_INTERVAL_MIN <= spawn_interval g;
  enemies_ok : Forall shooter_ok (enemies g);
  the_boss_ok : forall bo, boss g = Some bo -> boss_ok bo;
  cooldown_ok : 0 <= bullet_cooldown g }.

(** The spawn interval that [update] assigns at [elapsed] seconds. *)
Definition interval_at (elapsed : Q) : Q :=
  max ENEMY_SPAWN_INTERVAL_MIN (ENEMY_SPAWN_INTERVAL_START - elapsed / 60).

(** ** Sample worlds and runs *)

(** An object on which nothing has been assigned yet, in a world with no
    highscore file. *)
Definition blank : Game :=
  {| player_x := 0; player_y := 0; player_vx := 0; keys_left := false; keys_right := false;
     bullets := []; bullet_cooldown := 0; rapid_fire := false; rapid_fire_timer := 0;
     spread := false; spread_timer := 0; shield := false; shield_timer := 0;
     enemies := []; enemy_bullets := []; powerups := [];
     spawn_timer := 0; spawn_interval := 0; elapsed := 0; score := 0;
     running := false; game_over := false; boss := None; highscore := 0;
     rng := 0; hs_file := None; played := [] |}.

(** Polynomial stand-ins for sine and cosine and a Newton iteration for
    the hypotenuse; the runs below never call them. *)
Definition sin_poly (x : Q) : Q := x - x * x * x / 6 + x * x * x * x * x / 120.
Definition cos_poly (x : Q) : Q := 1 - x * x / 2 + x * x * x * x / 24.

Fixpoint newton_sqrt (n : nat) (s y : Q) : Q :=
  match n with
  | O => y
  | S n' => newton_sqrt n' s (if y =? 0 then 0 else (y + s / y) / 2)
  end.

Definition hypot_newton (dx dy : Q) : Q :=
  let s := dx * dx + dy * dy in newton_sqrt 6 s ((1 + s) / 2).

(** The world whose random values are those of [l], then zeros. *)
Definition world (l : list Q) : Env :=
  {| m_sin := sin_poly; m_cos := cos_poly; m_hypot := hypot_newton;
     rnd := fun n => nth n l 0 |}.

Definition idle (dt : Q) : FrameInput := {| f_dt := dt; f_events := []; f_space := false |}.
Definition firing (dt : Q) : FrameInput := {| f_dt := dt; f_events := []; f_space := true |}.

(** The draws of an enemy of size 26 at x = 240, straight, speed 70, that
    cannot shoot while [elapsed <= 30], with shoot interval 1. *)
Definition centre_enemy : list Q := [0.5; 0.5; 0; 0; 0.5; 0].

(** A game lost in one frame: the enemy spawns above the player and a
    frame of 7.75 seconds carries it into the player's rectangle. *)
Definition crash_world : Env := world centre_enemy.
Definition crashed : Game := run_frames crash_world [idle 7.75] (reset blank).


(** A power-up that runs out.  The enemy comes down for 7 seconds, one
    bullet destroys it, the draw for the drop is 0 and so is the draw for
    its kind ("rapid"); the power-up falls onto the player and is collected
    in the fourth frame; the fifth frame lasts 8.5 seconds.  The enemy
    spawned in that frame is at x = 7 and cannot shoot. *)
Definition pickup_world : Env := world (centre_enemy ++ [0; 0] ++ [0; 0; 0; 0; 0.5; 0]).
Definition pickup_run : list FrameInput :=
  [idle 7; firing (1 # 16); idle (1 # 4); idle (1 # 4); idle 8.5].

(** The scenario of a bullet at (100, 95) and an enemy of radius 10 at
    (100, 100). *)
Definition duel : Game :=
  set_bullets [Bullet.new 100 95]
    (set_enemies [Enemy.mk 100 100 10 70 Straight 0 false 0 2] (reset blank)).

(** An enemy bullet inside the player's rectangle. *)
Definition under_fire : Game :=
  set_enemy_bullets [EnemyBullet.mk 240 570 0 200 5] (reset blank).


(** ** Comparisons, [max], [min], [clamp] *)

Lemma Qltb_spec (a b : Q) : BoolSpec (a < b) (b <= a) (a <? b).
Proof.
  unfold Qltb. destruct (Qle_bool b a) eqn:E; constructor.
  - now apply Qle_bool_iff.
  - apply Qnot_le_lt. intro H. apply Qle_bool_iff in H. congruence.
Qed.

Lemma Qleb_spec (a b : Q) : BoolSpec (a <= b) (b < a) (a <=? b).
Proof.
  unfold Qleb. destruct (Qle_bool a b) eqn:E; constructor.
  - now apply Qle_bool_iff.
  - apply Qnot_le_lt. intro H. apply Qle_bool_iff in H. congruence.
Qed.

Lemma max_lower (a b : Q) : a <= max a b /\ b <= max a b.
Proof. unfold max. destruct (Qltb_spec a b); split; lra. Qed.

Lemma max_cases (a b : Q) : max a b = a \/ max a b = b.
Proof. unfold max. destruct (a <? b); auto. Qed.

Lemma min_upper (a b : Q) : min a b <= a /\ min a b <= b.
Proof. unfold min. destruct (Qltb_spec b a); split; lra. Qed.

Lemma min_cases (a b : Q) : min a b = a \/ min a b = b.
Proof. unfold min. destruct (b <? a); auto. Qed.

Lemma clamp_bounds (v a b : Q) : a <= b -> a <= clamp v a b <= b.
Proof.
  intro H. unfold clamp.
  destruct (max_lower a (min b v)) as [H1 H2].
  destruct (min_upper b v) as [H3 H4].
  split; [exact H1|].
  destruct (max_cases a (min b v)) as [-> | ->]; lra.
Qed.

(** ** What the parts of [update] leave alone *)

(** Closed comparisons of rationals, by computation. *)
Ltac qground :=
  repeat split;
  first [ apply Qle_bool_iff; vm_compute; reflexivity
        | apply Qlt_alt; vm_compute; reflexivity ].

Ltac split_ifs :=
  repeat match goal with
         | |- context [if ?c then _ else _] => destruct c eqn:?
         | |- context [match ?x with Some _ => _ | None => _ end] => destruct x eqn:?
         end.

Lemma fold_left_view {A T : Type} (V : Game -> T) (f : Game -> A -> Game) (l : list A) :
  (forall g a, V (f g a) = V g) -> forall g, V (fold_left f l g) = V g.
Proof.
  intro H. induction l as [|a l IH]; intro g; simpl; [reflexivity|].
  now rewrite IH, H.
Qed.

(** The views, attribute by attribute. *)
Lemma helm_fields (a b : Game) :
  helm a = helm b ->
  player_x a = player_x b /\ player_y a = player_y b
  /\ bullet_cooldown a = bullet_cooldown b /\ elapsed a = elapsed b
  /\ spawn_timer a = spawn_timer b /\ spawn_interval a = spawn_interval b.
Proof. unfold helm. intro H. injection H. intros. repeat split; assumption. Qed.

Lemma deck_fields (a b : Game) :
  deck a = deck b ->
  player_x a = player_x b /\ player_y a = player_y b
  /\ keys_left a = keys_left b /\ keys_right a = keys_right b
  /\ bullet_cooldown a = bullet_cooldown b
  /\ elapsed a = elapsed b /\ score a = score b /\ played a = played b
  /\ running a = running b /\ game_over a = game_over b.
Proof. unfold deck. intro H. injection H. intros. repeat split; assumption. Qed.

Lemma beyond_fields (a b : Game) :
  beyond_enemy_bullets a = beyond_enemy_bullets b ->
  score a = score b /\ enemies a = enemies b /\ powerups a = powerups b
  /\ bullets a = bullets b /\ boss a = boss b.
Proof.
  unfold beyond_enemy_bullets. intro H. injection H. intros. repeat split; assumption.
Qed.

Lemma off_enemies_fields (a b : Game) :
  off_enemies a = off_enemies b -> score a = score b /\ played a = played b.
Proof. unfold off_enemies. intro H. injection H. intros. split; assumption. Qed.

Lemma advance_clock_fields dt g :
  elapsed (advance_clock dt g) = elapsed g + dt
  /\ deck (advance_clock dt g)
     = (player_x g, player_y g, player_vx g, keys_left g, keys_right g,
        (bullets g, bullet_cooldown g),
        (rapid_fire g, rapid_fire_timer g, spread g, spread_timer g, shield g, shield_timer g),
        (enemy_bullets g, powerups g),
        (elapsed g + dt, score g),
        (running g, game_over g, highscore g, hs_file g, played g))
  /\ boss (advance_clock dt g) = boss g
  /\ score (advance_clock dt g) = score g
  /\ played (advance_clock dt g) = played g
  /\ player_x (advance_clock dt g) = player_x g
  /\ bullet_cooldown (advance_clock dt g) = bullet_cooldown g
  /\ spawn_interval (advance_clock dt g) = spawn_interval g.
Proof. repeat split. Qed.

Lemma player_movement_fields dt mul g :
  helm (player_movement dt mul g)
  = (clamp (player_x g
            + ((if keys_left g then -1 else 0) + (if keys_right g then 1 else 0))
              * PLAYER_SPEED * mul * dt) (PLAYER_W / 2) (SCREEN_W - PLAYER_W / 2),
     player_y g,
     ((if keys_left g then -1 else 0) + (if keys_right g then 1 else 0)) * PLAYER_SPEED * mul,
     keys_left g, keys_right g, bullet_cooldown g,
     elapsed g, spawn_timer g, spawn_interval g, highscore g)
  /\ elapsed (player_movement dt mul g) = elapsed g
  /\ spawn_timer (player_movement dt mul g) = spawn_timer g
  /\ spawn_interval (player_movement dt mul g) = spawn_interval g
  /\ bullet_cooldown (player_movement dt mul g) = bullet_cooldown g
  /\ score (player_movement dt mul g) = score g
  /\ played (player_movement dt mul g) = played g.
Proof. repeat split. Qed.

Lemma player_movement_bounds dt mul g :
  PLAYER_W / 2 <= player_x (player_movement dt mul g) <= SCREEN_W - PLAYER_W / 2.
Proof.
  unfold player_movement. cbn [player_x set_player_x]. apply clamp_bounds. qground.
Qed.

Section Frames.

Context (env : Env).

Lemma helm_powerup_timers dt g : helm (powerup_timers dt g) = helm g.
Proof.
  unfold powerup_timers, shield_tick, spread_tick, rapid_fire_tick.
  split_ifs; reflexivity.
Qed.

Lemma helm_enemy_shoot dt e g : helm (snd (enemy_shoot env dt e g)) = helm g.
Proof. unfold enemy_shoot. split_ifs; reflexivity. Qed.

Lemma helm_enemies_loop dt mul es g :
  helm (snd (enemies_loop env dt mul es g)) = helm g.
Proof.
  revert g. induction es as [|e rest IH]; intro g; simpl; [reflexivity|].
  pose proof (helm_enemy_shoot dt (move_enemy env (elapsed g) dt mul e) g) as Hs.
  destruct (enemy_shoot env dt (move_enemy env (elapsed g) dt mul e) g) as [e2 g1].
  specialize (IH g1).
  destruct (enemies_loop env dt mul rest g1) as [rest' g2].
  simpl in *. congruence.
Qed.

Lemma helm_update_enemies dt mul g : helm (update_enemies env dt mul g) = helm g.
Proof.
  unfold update_enemies.
  pose proof (helm_enemies_loop dt mul (enemies g) g) as H.
  destruct (enemies_loop env dt mul (enemies g) g) as [es g']. exact H.
Qed.

Lemma helm_boss_behavior dt g : helm (boss_behavior env dt g) = helm g.
Proof. unfold boss_behavior. split_ifs; reflexivity. Qed.

Lemma helm_spawn_powerup x y g : helm (spawn_powerup env x y g) = helm g.
Proof. reflexivity. Qed.

Lemma helm_bullet_step b g : helm (bullet_step env b g) = helm g.
Proof.
  unfold bullet_step, destroy_enemy, hit_boss. simpl.
  split_ifs; reflexivity.
Qed.

Lemma helm_bullets_vs_enemies g : helm (bullets_vs_enemies env g) = helm g.
Proof.
  unfold bullets_vs_enemies.
  apply (fold_left_view helm). intros; apply helm_bullet_step.
Qed.

Lemma helm_die g : helm (die g) = helm g.
Proof. unfold die, save_highscore. split_ifs; reflexivity. Qed.

Lemma helm_enemy_bullets_vs_player rc ebs g :
  helm (flow_game (enemy_bullets_vs_player rc ebs g)) = helm g.
Proof.
  revert g. induction ebs as [|eb rest IH]; intro g; simpl; [reflexivity|].
  split_ifs; simpl; rewrite ?IH, ?helm_die; reflexivity.
Qed.

Lemma helm_enemies_vs_player rc es g :
  helm (flow_game (enemies_vs_player rc es g)) = helm g.
Proof.
  revert g. induction es as [|e rest IH]; intro g; simpl; [reflexivity|].
  split_ifs; simpl; rewrite ?IH, ?helm_die; reflexivity.
Qed.

Lemma helm_collect_step g p : helm (collect_step g p) = helm g.
Proof. unfold collect_step, apply_powerup. split_ifs; reflexivity. Qed.

Lemma helm_after_bullets dt mul g : helm (after_bullets dt mul g) = helm g.
Proof.
  unfold after_bullets.
  pose proof (helm_enemy_bullets_vs_player (player_rect g) (enemy_bullets g) g) as H1.
  destruct (enemy_bullets_vs_player (player_rect g) (enemy_bullets g) g) as [g1|g1];
    simpl in H1; [|exact H1].
  pose proof (helm_enemies_vs_player (player_rect g) (enemies g1) g1) as H2.
  destruct (enemies_vs_player (player_rect g) (enemies g1) g1) as [g2|g2];
    simpl in H2; [|congruence].
  unfold passive_score, powerup_falling, powerup_collection.
  change (helm (fold_left collect_step (powerups g2) g2) = helm g).
  rewrite (fold_left_view helm collect_step); [congruence|].
  intros; apply helm_collect_step.
Qed.

Lemma helm_update_bullets dt g : helm (update_bullets dt g) = helm g.
Proof. reflexivity. Qed.

Lemma helm_update_enemy_bullets dt g : helm (update_enemy_bullets dt g) = helm g.
Proof. reflexivity. Qed.

Lemma helm_after_movement dt mul g : helm (after_movement env dt mul g) = helm g.
Proof.
  unfold after_movement.
  rewrite helm_after_bullets, helm_bullets_vs_enemies, helm_boss_behavior,
    helm_update_enemies, helm_update_enemy_bullets, helm_update_bullets.
  apply helm_powerup_timers.
Qed.

Lemma update_live dt g :
  live g = true ->
  update env dt g =
  after_movement env dt (difficulty_mul (advance_clock dt g))
    (player_movement dt (difficulty_mul (advance_clock dt g))
       (boss_threshold (spawn_regular env dt (advance_clock dt g)))).
Proof.
  unfold live. intro H. apply andb_prop in H as [Hr Hg].
  apply negb_true_iff in Hg.
  unfold update. rewrite Hr, Hg. cbv beta iota zeta delta [negb motion after_movement].
  reflexivity.
Qed.

Lemma update_idle dt g : live g = false -> update env dt g = g.
Proof.
  unfold live, update. destruct (running g); simpl; [|reflexivity].
  destruct (game_over g); simpl; [reflexivity|discriminate].
Qed.

End Frames.

(** ** Reachable states *)

Section Reachable.

Context (env : Env).

Lemma reachable_handle_event g ev : reachable env g -> reachable env (handle_event g ev).
Proof.
  intro H. destruct ev; simpl; try (now apply reach_keys); try apply reach_reset.
  - destruct (negb (game_over g)); [now apply reach_fire | exact H].
  - destruct (game_over g); [apply reach_reset | exact H].
Qed.

Lemma reachable_frame g dt evs space :
  reachable env g -> 0 <= dt -> reachable env (frame env dt evs space g).
Proof.
  intros H Hdt. unfold frame. apply reach_update; [|exact Hdt].
  apply reach_cooldown; [|exact Hdt].
  assert (He : reachable env (fold_left handle_event evs g)).
  { revert g H. induction evs as [|ev evs IH]; intros g H; simpl; [exact H|].
    apply IH. now apply reachable_handle_event. }
  unfold continuous_firing. destruct space; [|exact He].
  destruct (negb (game_over _)); [now apply reach_fire | exact He].
Qed.

Lemma reachable_run_frames fs g :
  reachable env g -> Forall (fun f => 0 <= f_dt f) fs -> reachable env (run_frames env fs g).
Proof.
  intros H Hfs. revert g H. induction Hfs as [|f fs Hf _ IH]; intros g H; simpl; [exact H|].
  apply IH. now apply reachable_frame.
Qed.

End Reachable.

(** ** The player stays on the screen *)

Lemma player_x_fire_bullet g : player_x (fire_bullet g) = player_x g.
Proof. unfold fire_bullet. split_ifs; reflexivity. Qed.

Lemma spawn_regular_keeps env dt g :
  deck (spawn_regular env dt g) = deck g /\ boss (spawn_regular env dt g) = boss g.
Proof.
  unfold spawn_regular, spawn_enemy.
  destruct (boss g) eqn:Hb; [now rewrite Hb|].
  destruct (score g <? BOSS_APPEAR_SCORE); [|now rewrite Hb].
  match goal with |- context [if ?c then _ else _] => destruct c end.
  - destruct (draw_enemy _ _ _) as [e n]. now rewrite <- Hb.
  - now rewrite <- Hb.
Qed.

Lemma boss_threshold_keeps g :
  deck (boss_threshold g) = deck g
  /\ spawn_timer (boss_threshold g) = spawn_timer g
  /\ spawn_interval (boss_threshold g) = spawn_interval g
  /\ enemies (boss_threshold g) = enemies g.
Proof.
  unfold boss_threshold, spawn_boss.
  destruct (boss g); [auto|].
  destruct (BOSS_APPEAR_SCORE <=? score g); auto.
Qed.

Lemma player_x_before_movement env dt g :
  player_x (boss_threshold (spawn_regular env dt (advance_clock dt g))) = player_x g.
Proof.
  destruct (boss_threshold_keeps (spawn_regular env dt (advance_clock dt g))) as [H1 _].
  destruct (spawn_regular_keeps env dt (advance_clock dt g)) as [H2 _].
  apply deck_fields in H1 as (H1 & _). apply deck_fields in H2 as (H2 & _).
  destruct (advance_clock_fields dt g) as (_ & _ & _ & _ & _ & H3 & _).
  congruence.
Qed.

(** C8.  From a freshly reset state, over every sequence of calls of the
    program with frame durations [dt >= 0] and any movement keys, the
    player's x stays within [PLAYER_W/2, SCREEN_W - PLAYER_W/2]. *)
Theorem player_x_stays_on_screen (env : Env) (g : Game) :
  reachable env g ->
  PLAYER_W / 2 <= player_x g <= SCREEN_W - PLAYER_W / 2.
Proof.
  induction 1 as [g0 | g dt H IH Hdt | g H IH | g l r H IH | g dt H IH Hdt].
  - simpl. qground.
  - destruct (live g) eqn:Hl.
    + rewrite update_live by exact Hl.
      destruct (helm_fields _ _ (helm_after_movement env dt (difficulty_mul (advance_clock dt g))
        (player_movement dt (difficulty_mul (advance_clock dt g))
           (boss_threshold (spawn_regular env dt (advance_clock dt g)))))) as (Hx & _).
      rewrite Hx. apply player_movement_bounds.
    + rewrite update_idle by exact Hl. exact IH.
  - rewrite player_x_fire_bullet. exact IH.
  - exact IH.
  - exact IH.
Qed.

Lemma player_x_stays_on_screen_witness :
  PLAYER_W / 2 <= player_x crashed <= SCREEN_W - PLAYER_W / 2.
Proof.
  apply (player_x_stays_on_screen crash_world crashed).
  unfold crashed. apply reachable_run_frames; [apply reach_reset|].
  repeat constructor. qground.
Defined.

(** ** [reset] *)

(** C9.  [reset], from any state, gives score 0, elapsed 0, empty bullet,
    enemy-bullet, enemy and power-up lists, no boss, the three effects off
    with their timers and the fire cooldown at zero, spawn timer zero with
    the start interval, game_over false and running true; apart from the
    highscore all attributes are those of a newly constructed game
    ([__init__] ends with [reset()]). *)
Theorem reset_restores_fresh_state (g g0 : Game) :
  score (reset g) = 0 /\ elapsed (reset g) = 0
  /\ bullets (reset g) = [] /\ enemy_bullets (reset g) = []
  /\ enemies (reset g) = [] /\ powerups (reset g) = []
  /\ boss (reset g) = None
  /\ rapid_fire (reset g) = false /\ rapid_fire_timer (reset g) = 0
  /\ spread (reset g) = false /\ spread_timer (reset g) = 0
  /\ shield (reset g) = false /\ shield_timer (reset g) = 0
  /\ bullet_cooldown (reset g) = 0
  /\ spawn_timer (reset g) = 0 /\ spawn_interval (reset g) = ENEMY_SPAWN_INTERVAL_START
  /\ game_over (reset g) = false /\ running (reset g) = true
  /\ simulation (reset g) = simulation (reset g0).
Proof. repeat split. Qed.

(** ** The boss *)

(** C10.  While the boss is above the patrol altitude ([y < 80]), "boss
    behavior" only moves it down by [40 * dt]: no enemy bullet is added, the
    shoot timer keeps its value. *)
Theorem boss_holds_fire_while_descending (env : Env) (dt : Q) (g : Game) (bo : Boss.t) :
  boss g = Some bo ->
  Boss.y bo < 80 ->
  enemy_bullets (boss_behavior env dt g) = enemy_bullets g
  /\ boss (boss_behavior env dt g)
     = Some (Boss.mk (Boss.x bo) (Boss.y bo + 40 * dt) (Boss.r bo) (Boss.hp bo) (Boss.vx bo)
                     (Boss.shoot_timer bo) (Boss.shoot_interval bo)).
Proof.
  intros Hb Hy. unfold boss_behavior. rewrite Hb.
  destruct (Qltb_spec (Boss.y bo) 80) as [_|Hge]; [split; reflexivity | lra].
Qed.

Lemma boss_holds_fire_while_descending_witness :
  enemy_bullets (boss_behavior crash_world 0.25 (set_boss (Some new_boss) (reset blank))) = []
  /\ boss (boss_behavior crash_world 0.25 (set_boss (Some new_boss) (reset blank)))
     = Some (Boss.mk (SCREEN_W / 2) (-80 + 40 * 0.25) 60 18 60 0 1).
Proof.
  apply (boss_holds_fire_while_descending crash_world 0.25
           (set_boss (Some new_boss) (reset blank)) new_boss).
  - reflexivity.
  - qground.
Defined.

(** The fan is fired from patrol altitude only. *)
Lemma boss_fan_only_on_patrol (env : Env) (dt : Q) (g : Game) :
  enemy_bullets (boss_behavior env dt g) <> enemy_bullets g ->
  exists bo, boss g = Some bo /\ 80 <= Boss.y bo.
Proof.
  unfold boss_behavior. destruct (boss g) as [bo|]; [|congruence].
  destruct (Qltb_spec (Boss.y bo) 80) as [Hlt|Hge]; [simpl; congruence|].
  intros _. now exists bo.
Qed.



(** ** Game over *)

(** C2, as the code has it.  Once [game_over] is set, every [update] call
    returns the state unchanged, and [run] does not fire: the key-down
    handler and the continuous-firing poll both test [game_over] before they
    call [fire_bullet].  [fire_bullet] itself has no such test; called on
    its own it leaves the state alone only while the cooldown is positive.
    [reset] clears the flag. *)
Theorem game_over_stops_update_and_guarded_fire (env : Env) (g : Game) :
  game_over g = true ->
  (forall dt, update env dt g = g)
  /\ handle_event g KeyDownSpace = g
  /\ (forall space, continuous_firing space g = g)
  /\ (0 < bullet_cooldown g -> fire_bullet g = g)
  /\ game_over (reset g) = false.
Proof.
  intro Hg. split; [|split; [|split; [|split]]].
  - intro dt. apply update_idle. unfold live. rewrite Hg. apply andb_false_r.
  - simpl. now rewrite Hg.
  - intros [|]; simpl; [now rewrite Hg | reflexivity].
  - intro Hc. unfold fire_bullet.
    destruct (Qltb_spec 0 (bullet_cooldown g)) as [_|Hle]; [reflexivity | lra].
  - reflexivity.
Qed.

Lemma game_over_stops_update_and_guarded_fire_witness :
  (forall dt, update crash_world dt crashed = crashed)
  /\ handle_event crashed KeyDownSpace = crashed
  /\ (forall space, continuous_firing space crashed = crashed)
  /\ (0 < bullet_cooldown crashed -> fire_bullet crashed = crashed)
  /\ game_over (reset crashed) = false.
Proof.
  apply (game_over_stops_update_and_guarded_fire crash_world crashed).
  vm_compute. reflexivity.
Defined.

(** C2 as stated fails for [fire_bullet]: in the reachable state [crashed]
    the game is over and the cooldown is zero, and a direct call appends a
    bullet, sets the cooldown and plays a sound. *)
Lemma fire_bullet_ignores_game_over :
  reachable crash_world crashed
  /\ game_over crashed = true
  /\ bullets crashed = []
  /\ bullet_cooldown crashed == 0
  /\ List.length (bullets (fire_bullet crashed)) = 1%nat
  /\ bullet_cooldown (fire_bullet crashed) == PLAYER_COOLDOWN
  /\ fire_bullet crashed <> crashed.
Proof.
  split.
  { unfold crashed. apply reachable_run_frames; [apply reach_reset|].
    repeat constructor. qground. }
  split; [vm_compute; reflexivity|].
  split; [vm_compute; reflexivity|].
  split; [vm_compute; reflexivity|].
  split; [vm_compute; reflexivity|].
  split; [vm_compute; reflexivity|].
  intro H. apply (f_equal (fun s => List.length (bullets s))) in H.
  vm_compute in H. discriminate.
Qed.

(** ** The hard stop of an enemy bullet *)

Lemma enemy_bullets_vs_player_app rc pre post g g2 :
  enemy_bullets_vs_player rc pre g = Next g2 ->
  enemy_bullets_vs_player rc (pre ++ post) g = enemy_bullets_vs_player rc post g2.
Proof.
  revert g. induction pre as [|eb pre IH]; intros g H; simpl in *.
  - now injection H as ->.
  - destruct (enemy_bullet_hits rc eb); [|now apply IH].
    destruct (shield _); [now apply IH | discriminate].
Qed.

Lemma enemy_bullets_vs_player_next rc ebs g g2 :
  enemy_bullets_vs_player rc ebs g = Next g2 ->
  beyond_enemy_bullets g2 = beyond_enemy_bullets g
  /\ running g2 = running g /\ game_over g2 = game_over g /\ hs_file g2 = hs_file g.
Proof.
  revert g. induction ebs as [|eb ebs IH]; intros g H; simpl in *.
  - injection H as ->. auto.
  - destruct (enemy_bullet_hits rc eb); [|now apply IH].
    destruct (shield _); [|discriminate].
    apply IH in H. exact H.
Qed.

Lemma die_effect g :
  game_over (die g) = true /\ running (die g) = false
  /\ played (die g) = played g ++ ["explode"%string]
  /\ enemy_bullets (die g) = enemy_bullets g
  /\ shield (die g) = shield g
  /\ beyond_enemy_bullets (die g) = beyond_enemy_bullets g.
Proof. unfold die, save_highscore. split_ifs; repeat split. Qed.

Lemma update_at_player_hits env dt g :
  live g = true ->
  update env dt g
  = after_bullets dt (difficulty_mul (advance_clock dt g)) (at_player_hits env dt g).
Proof.
  unfold live. intro H. apply andb_prop in H as [Hr Hg].
  apply negb_true_iff in Hg.
  unfold update. rewrite Hr, Hg.
  cbv beta iota zeta delta [negb at_player_hits at_collisions].
  reflexivity.
Qed.

(** C1.  When the loop over the enemy bullets comes to a bullet [eb] that
    overlaps the player's rectangle while the shield is off, [update]
    removes [eb], sets [game_over], clears [running] and returns at once:
    the result is the state at the hit with these changes and nothing else.
    The score, the enemies, the power-ups and the effects are those with
    which the loop began, so there is no passive score and no enemy
    contact, pickup or power-up fall in that call. *)
Theorem enemy_bullet_hit_is_hard_stop
    (env : Env) (dt : Q) (g g2 : Game) (pre post : list EnemyBullet.t) (eb : EnemyBullet.t) :
  live g = true ->
  enemy_bullets (at_player_hits env dt g) = pre ++ eb :: post ->
  enemy_bullets_vs_player (player_rect (at_player_hits env dt g)) pre
    (at_player_hits env dt g) = Next g2 ->
  enemy_bullet_hits (player_rect (at_player_hits env dt g)) eb = true ->
  shield g2 = false ->
  update env dt g
  = die (set_enemy_bullets (remove EnemyBullet.eqb eb (enemy_bullets g2)) g2)
  /\ game_over (update env dt g) = true
  /\ running (update env dt g) = false
  /\ enemy_bullets (update env dt g) = remove EnemyBullet.eqb eb (enemy_bullets g2)
  /\ score (update env dt g) = score (at_player_hits env dt g)
  /\ enemies (update env dt g) = enemies (at_player_hits env dt g)
  /\ powerups (update env dt g) = powerups (at_player_hits env dt g)
  /\ beyond_enemy_bullets (update env dt g)
     = beyond_enemy_bullets (at_player_hits env dt g)
  /\ played (update env dt g) = played g2 ++ ["explode"%string].
Proof.
  intros Hl Hebs Hpre Hhit Hsh.
  rewrite (update_at_player_hits env dt g Hl).
  remember (at_player_hits env dt g) as g1 eqn:Hg1. clear Hg1.
  assert (Hu : after_bullets dt (difficulty_mul (advance_clock dt g)) g1
               = die (set_enemy_bullets (remove EnemyBullet.eqb eb (enemy_bullets g2)) g2)).
  { unfold after_bullets. rewrite Hebs.
    rewrite (enemy_bullets_vs_player_app _ pre (eb :: post) g1 g2 Hpre).
    cbn [enemy_bullets_vs_player]. rewrite Hhit.
    cbn [shield set_enemy_bullets]. rewrite Hsh. reflexivity. }
  destruct (enemy_bullets_vs_player_next _ _ _ _ Hpre) as (Hv & _).
  destruct (die_effect (set_enemy_bullets (remove EnemyBullet.eqb eb (enemy_bullets g2)) g2))
    as (Hgo & Hrun & Hpl & Heb & _ & Hbeyond).
  rewrite Hu.
  assert (Hb : beyond_enemy_bullets
                 (die (set_enemy_bullets (remove EnemyBullet.eqb eb (enemy_bullets g2)) g2))
               = beyond_enemy_bullets g1).
  { rewrite Hbeyond. exact Hv. }
  split; [reflexivity|]. split; [exact Hgo|]. split; [exact Hrun|].
  split; [exact Heb|].
  destruct (beyond_fields _ _ Hb) as (Hsc & Hen & Hpu & _).
  split; [exact Hsc|]. split; [exact Hen|]. split; [exact Hpu|].
  split; [exact Hb | exact Hpl].
Qed.

Lemma enemy_bullet_hit_is_hard_stop_witness :
  game_over (update crash_world 0 under_fire) = true
  /\ running (update crash_world 0 under_fire) = false
  /\ enemy_bullets (update crash_world 0 under_fire) = []
  /\ score (update crash_world 0 under_fire) = score (at_player_hits crash_world 0 under_fire).
Proof.
  destruct (enemy_bullet_hit_is_hard_stop crash_world 0 under_fire
              (at_player_hits crash_world 0 under_fire) [] []
              (EnemyBullet.mk (240 + 0 * 0) (570 + 200 * 0) 0 200 5))
    as (_ & Hgo & Hrun & Heb & Hsc & _).
  - reflexivity.
  - vm_compute. reflexivity.
  - reflexivity.
  - vm_compute. reflexivity.
  - vm_compute. reflexivity.
  - split; [exact Hgo|]. split; [exact Hrun|]. split; [|exact Hsc].
    rewrite Heb. vm_compute. reflexivity.
Defined.

(** ** The clock and the spawn interval *)

Lemma div60_le (x y : Q) : x <= y -> x / 60 <= y / 60.
Proof.
  intro H. unfold Qdiv. apply Qmult_le_compat_r; [exact H|]. qground.
Qed.

Lemma interval_at_antitone (e1 e2 : Q) : e1 <= e2 -> interval_at e2 <= interval_at e1.
Proof.
  intro H. apply div60_le in H. unfold interval_at, max.
  destruct (Qltb_spec ENEMY_SPAWN_INTERVAL_MIN (ENEMY_SPAWN_INTERVAL_START - e2 / 60));
    destruct (Qltb_spec ENEMY_SPAWN_INTERVAL_MIN (ENEMY_SPAWN_INTERVAL_START - e1 / 60));
    lra.
Qed.

Lemma interval_at_floor (e : Q) : ENEMY_SPAWN_INTERVAL_MIN <= interval_at e.
Proof. unfold interval_at. apply max_lower. Qed.

Lemma spawn_interval_spawn_regular env dt g :
  spawn_interval (spawn_regular env dt g)
  = match boss g with
    | None => if score g <? BOSS_APPEAR_SCORE then interval_at (elapsed g)
              else spawn_interval g
    | Some _ => spawn_interval g
    end.
Proof.
  unfold spawn_regular, spawn_enemy.
  destruct (boss g); [reflexivity|].
  destruct (score g <? BOSS_APPEAR_SCORE); [|reflexivity].
  match goal with |- context [if ?c then _ else _] => destruct c end.
  - destruct (draw_enemy _ _ _) as [e n]. reflexivity.
  - reflexivity.
Qed.

Lemma update_clock env dt g :
  live g = true ->
  elapsed (update env dt g) = elapsed g + dt
  /\ spawn_interval (update env dt g)
     = spawn_interval (spawn_regular env dt (advance_clock dt g))
  /\ spawn_timer (update env dt g)
     = spawn_timer (spawn_regular env dt (advance_clock dt g))
  /\ bullet_cooldown (update env dt g) = bullet_cooldown g.
Proof.
  intro Hl. rewrite (update_live env dt g Hl).
  destruct (helm_fields _ _ (helm_after_movement env dt (difficulty_mul (advance_clock dt g))
    (player_movement dt (difficulty_mul (advance_clock dt g))
       (boss_threshold (spawn_regular env dt (advance_clock dt g))))))
    as (_ & _ & Hc & He & Ht & Hi).
  destruct (player_movement_fields dt (difficulty_mul (advance_clock dt g))
              (boss_threshold (spawn_regular env dt (advance_clock dt g))))
    as (_ & He1 & Ht1 & Hi1 & Hc1 & _).
  destruct (boss_threshold_keeps (spawn_regular env dt (advance_clock dt g)))
    as (Hd1 & Ht2 & Hi2 & _).
  apply deck_fields in Hd1 as (_ & _ & _ & _ & Hc2 & He2 & _).
  destruct (spawn_regular_keeps env dt (advance_clock dt g)) as [Hd2 _].
  apply deck_fields in Hd2 as (_ & _ & _ & _ & Hc3 & He3 & _).
  destruct (advance_clock_fields dt g) as (He4 & _ & _ & _ & _ & _ & Hc4 & _).
  repeat split; congruence.
Qed.

Lemma interval_invariant env g :
  reachable env g -> interval_at (elapsed g) <= spawn_interval g.
Proof.
  induction 1 as [g0 | g dt H IH Hdt | g H IH | g l r H IH | g dt H IH Hdt].
  - simpl. qground.
  - destruct (live g) eqn:Hl; [|now rewrite update_idle].
    destruct (update_clock env dt g Hl) as (He & Hi & _).
    rewrite He, Hi, spawn_interval_spawn_regular.
    cbn [boss score elapsed spawn_interval advance_clock set_elapsed].
    assert (Hmono : interval_at (elapsed g + dt) <= interval_at (elapsed g)).
    { apply interval_at_antitone. lra. }
    destruct (boss g); [lra|].
    destruct (score g <? BOSS_APPEAR_SCORE); lra.
  - unfold fire_bullet. split_ifs; exact IH.
  - exact IH.
  - exact IH.
Qed.

(** C7.  In a frame in which enemy spawning is active (no boss, score below
    the threshold) the spawn interval becomes
    [max(ENEMY_SPAWN_INTERVAL_MIN, ENEMY_SPAWN_INTERVAL_START - elapsed/60)]
    at the new elapsed time.  Over [update] calls with [dt >= 0] the spawn
    interval never grows and never falls below the minimum, and elapsed
    time and the difficulty multiplier [1 + elapsed/60] never shrink. *)
Theorem spawn_interval_ramp (env : Env) (g : Game) (dt : Q) :
  reachable env g ->
  0 <= dt ->
  (live g = true -> boss g = None -> score g < BOSS_APPEAR_SCORE ->
   spawn_interval (update env dt g)
   = max ENEMY_SPAWN_INTERVAL_MIN
         (ENEMY_SPAWN_INTERVAL_START - elapsed (update env dt g) / 60))
  /\ spawn_interval (update env dt g) <= spawn_interval g
  /\ ENEMY_SPAWN_INTERVAL_MIN <= spawn_interval (update env dt g)
  /\ elapsed g <= elapsed (update env dt g)
  /\ difficulty_mul g <= difficulty_mul (update env dt g).
Proof.
  intros Hr Hdt.
  pose proof (interval_invariant env g Hr) as Hinv.
  pose proof (interval_invariant env _ (reach_update env g dt Hr Hdt)) as Hinv'.
  pose proof (interval_at_floor (elapsed (update env dt g))) as Hfloor.
  destruct (live g) eqn:Hl.
  - destruct (update_clock env dt g Hl) as (He & Hi & _).
    assert (Hmono : interval_at (elapsed g + dt) <= interval_at (elapsed g)).
    { apply interval_at_antitone. lra. }
    assert (Hstep : spawn_interval (update env dt g) <= spawn_interval g).
    { rewrite Hi, spawn_interval_spawn_regular.
      cbn [boss score elapsed spawn_interval advance_clock set_elapsed].
      destruct (boss g); [lra|].
      destruct (score g <? BOSS_APPEAR_SCORE); lra. }
    split; [|split; [exact Hstep|split; [lra|split]]].
    + intros _ Hb Hs. rewrite Hi, He, spawn_interval_spawn_regular.
      cbn [boss score elapsed advance_clock set_elapsed]. rewrite Hb.
      destruct (Qltb_spec (score g) BOSS_APPEAR_SCORE); [reflexivity | lra].
    + rewrite He. lra.
    + unfold difficulty_mul. rewrite He.
      assert (elapsed g / 60 <= (elapsed g + dt) / 60) by (apply div60_le; lra). lra.
  - rewrite (update_idle env dt g Hl) in *.
    split; [discriminate|]. repeat split; lra.
Qed.

Lemma spawn_interval_ramp_witness :
  spawn_interval (update crash_world 0.5 (reset blank))
  = max ENEMY_SPAWN_INTERVAL_MIN
        (ENEMY_SPAWN_INTERVAL_START - elapsed (update crash_world 0.5 (reset blank)) / 60)
  /\ spawn_interval (update crash_world 0.5 (reset blank)) <= spawn_interval (reset blank)
  /\ ENEMY_SPAWN_INTERVAL_MIN <= spawn_interval (update crash_world 0.5 (reset blank))
  /\ difficulty_mul (reset blank) <= difficulty_mul (update crash_world 0.5 (reset blank)).
Proof.
  destruct (spawn_interval_ramp crash_world (reset blank) 0.5) as (H0 & H1 & H2 & _ & H3).
  - apply reach_reset.
  - qground.
  - split; [|split; [exact H1|split; [exact H2 | exact H3]]].
    apply H0; [reflexivity | reflexivity | qground].
Defined.

(** ** When a boss is created *)




(** ** The timers *)

Lemma Forall_remove {A : Type} (P : A -> Prop) (eqb : A -> A -> bool) (v : A) (l : list A) :
  Forall P l -> Forall P (remove eqb v l).
Proof.
  induction 1 as [|a l Ha Hl IH]; simpl; [constructor|].
  destruct (eqb a v); [exact Hl | now constructor].
Qed.

Lemma fold_left_inv {A : Type} (P : Game -> Prop) (f : Game -> A -> Game) (l : list A) :
  (forall g a, P g -> P (f g a)) -> forall g, P g -> P (fold_left f l g).
Proof.
  intro H. induction l as [|a l IH]; intros g Hg; simpl; [exact Hg|].
  apply IH, H, Hg.
Qed.

Section Timers.

Context (env : Env).
Hypothesis rnd_nonneg : forall n, 0 <= rnd env n.

Lemma draw_enemy_ok elapsed n : shooter_ok (fst (draw_enemy env elapsed n)).
Proof.
  unfold draw_enemy, draw_can_shoot, draw_extra, choices_kind, choice, uniform, random,
    bind, ret.
  cbv beta iota zeta.
  repeat match goal with
         | |- context [if ?c then _ else _] => destruct c
         end;
    cbn [fst snd]; unfold shooter_ok; cbn [Enemy.shoot_timer Enemy.shoot_interval];
    (split; [lra|]);
    match goal with |- context [rnd env ?k] => pose proof (rnd_nonneg k) end; lra.
Qed.

Lemma timers_ok_spawn_regular dt g :
  0 <= dt -> timers_ok g -> timers_ok (spawn_regular env dt g).
Proof.
  intros Hdt Hg.
  unfold spawn_regular, spawn_enemy.
  destruct (boss g) eqn:Hbg; [exact Hg|].
  destruct (score g <? BOSS_APPEAR_SCORE); [|exact Hg].
  match goal with |- context [if ?c then _ else _] => destruct c end.
  - pose proof (draw_enemy_ok (elapsed g) (rng g)) as Hd.
    cbn [rng elapsed set_spawn_timer set_spawn_interval].
    destruct (draw_enemy env (elapsed g) (rng g)) as [e n]. cbn [fst] in Hd.
    destruct Hg as [Hr Hs Hsh Hst Hsi He Hb Hc].
    constructor; cbn; auto; try lra.
    + apply max_lower.
    + apply Forall_app; split; [exact He | constructor; [exact Hd | constructor]].
  - destruct Hg as [Hr Hs Hsh Hst Hsi He Hb Hc].
    constructor; cbn; auto; try lra. apply max_lower.
Qed.

Lemma timers_ok_boss_threshold g : timers_ok g -> timers_ok (boss_threshold g).
Proof.
  intro Hg. unfold boss_threshold, spawn_boss.
  destruct (boss g) eqn:Hbg; [exact Hg|].
  destruct (BOSS_APPEAR_SCORE <=? score g); [|exact Hg].
  destruct Hg as [Hr Hs Hsh Hst Hsi He Hb Hc].
  constructor; cbn; auto.
  intros bo [= <-]. split; cbn; lra.
Qed.

Lemma timers_ok_powerup_timers dt g : timers_ok g -> timers_ok (powerup_timers dt g).
Proof.
  intros [Hr Hs Hsh Hst Hsi He Hb Hc].
  unfold powerup_timers, shield_tick, spread_tick, rapid_fire_tick.
  repeat match goal with
         | |- context [if ?a <=? ?b then _ else _] => destruct (Qleb_spec a b)
         | |- context [if ?c then _ else _] => destruct c eqn:?
         end;
    constructor; cbn in *; auto; try discriminate; try congruence; intros; lra.
Qed.

Lemma shooter_ok_move_enemy e el dt mul :
  shooter_ok e -> shooter_ok (move_enemy env el dt mul e).
Proof.
  unfold move_enemy, shooter_ok.
  destruct (Enemy.extra e); [auto | auto |].
  repeat match goal with |- context [if ?c then _ else _] => destruct c end; auto.
Qed.

Lemma enemy_shoot_ok dt e g :
  0 <= dt -> shooter_ok e ->
  shooter_ok (fst (enemy_shoot env dt e g))
  /\ off_enemies (snd (enemy_shoot env dt e g)) = off_enemies g.
Proof.
  intros Hdt [H1 H2]. unfold enemy_shoot, shooter_ok.
  destruct (Enemy.can_shoot e); [|auto].
  match goal with |- context [if ?c then _ else _] => destruct c end; cbn; split; auto;
    split; lra.
Qed.

Lemma enemies_loop_ok dt mul es g :
  0 <= dt -> Forall shooter_ok es ->
  Forall shooter_ok (fst (enemies_loop env dt mul es g))
  /\ off_enemies (snd (enemies_loop env dt mul es g)) = off_enemies g.
Proof.
  intros Hdt Hes. revert g.
  induction Hes as [|e rest He Hrest IH]; intro g; simpl; [split; [constructor|reflexivity]|].
  destruct (enemy_shoot_ok dt (move_enemy env (elapsed g) dt mul e) g Hdt
              (shooter_ok_move_enemy e (elapsed g) dt mul He)) as [Hs1 Hs2].
  destruct (enemy_shoot env dt (move_enemy env (elapsed g) dt mul e) g) as [e2 g1].
  destruct (IH g1) as [Hl1 Hl2].
  destruct (enemies_loop env dt mul rest g1) as [rest' g2].
  cbn [fst snd] in *. split; [|congruence].
  destruct (SCREEN_H <? Enemy.y e2 - Enemy.r e2); [exact Hl1 | now constructor].
Qed.

Lemma timers_ok_update_enemies dt mul g :
  0 <= dt -> timers_ok g -> timers_ok (update_enemies env dt mul g).
Proof.
  intros Hdt [Hr Hs Hsh Hst Hsi He Hb Hc]. unfold update_enemies.
  destruct (enemies_loop_ok dt mul (enemies g) g Hdt He) as [H1 H2].
  destruct (enemies_loop env dt mul (enemies g) g) as [es g'].
  cbn [fst snd] in *. unfold off_enemies in H2.
  injection H2 as E1 E2 E3 E4 E5 E6 E7 E8 E9 E10.
  constructor; cbn; rewrite ?E1, ?E2, ?E3, ?E4, ?E5, ?E6, ?E7, ?E8, ?E9, ?E10; auto.
Qed.

Lemma timers_ok_boss_behavior dt g :
  0 <= dt -> timers_ok g -> timers_ok (boss_behavior env dt g).
Proof.
  intros Hdt Hg. unfold boss_behavior.
  destruct (boss g) as [bo|] eqn:Hbg; [|exact Hg].
  destruct (the_boss_ok g Hg bo Hbg) as [Hb1 Hb2].
  destruct Hg as [Hr Hs Hsh Hst Hsi He _ Hc].
  repeat match goal with |- context [if ?c then _ else _] => destruct c end;
    constructor; cbn; auto; intros b [= <-]; split; cbn; lra.
Qed.

Lemma timers_ok_bullet_step g b : timers_ok g -> timers_ok (bullet_step env b g).
Proof.
  intro Hg. unfold bullet_step.
  destruct (find (bullet_hits_enemy b) (enemies g)) as [e|].
  - destruct Hg as [Hr Hs Hsh Hst Hsi He Hb Hc].
    unfold destroy_enemy, spawn_powerup, random, choice, bind, ret. cbn.
    destruct (_ <? POWERUP_SPAWN_CHANCE); constructor; cbn; auto;
      now apply Forall_remove.
  - unfold hit_boss. destruct (boss g) as [bo|] eqn:Hbg; [|exact Hg].
    destruct (bullet_hits_boss b bo); [|exact Hg].
    destruct (the_boss_ok g Hg bo Hbg) as [Hb1 Hb2].
    destruct Hg as [Hr Hs Hsh Hst Hsi He _ Hc]. cbn.
    destruct (_ <=? _)%Z; constructor; cbn; auto; try discriminate.
    intros b0 [= <-]. split; cbn; lra.
Qed.

Lemma timers_ok_die g : timers_ok g -> timers_ok (die g).
Proof.
  intros [Hr Hs Hsh Hst Hsi He Hb Hc]. unfold die, save_highscore.
  destruct (_ <? _)%Z; constructor; auto.
Qed.

Lemma timers_ok_enemy_bullets_vs_player rc ebs g :
  timers_ok g -> timers_ok (flow_game (enemy_bullets_vs_player rc ebs g)).
Proof.
  revert g. induction ebs as [|eb rest IH]; intros g Hg; simpl; [exact Hg|].
  destruct (enemy_bullet_hits rc eb); [|now apply IH].
  destruct (shield g) eqn:Hsh.
  - apply IH. destruct Hg. constructor; cbn; auto; discriminate.
  - cbn [flow_game]. apply timers_ok_die. destruct Hg. constructor; cbn; auto.
Qed.

Lemma timers_ok_enemies_vs_player rc es g :
  timers_ok g -> timers_ok (flow_game (enemies_vs_player rc es g)).
Proof.
  revert g. induction es as [|e rest IH]; intros g Hg; simpl; [exact Hg|].
  destruct (enemy_hits rc e); [|now apply IH].
  destruct (shield g) eqn:Hsh.
  - apply IH. destruct Hg. constructor; cbn; auto; try discriminate.
    now apply Forall_remove.
  - cbn [flow_game]. now apply timers_ok_die.
Qed.

Lemma timers_ok_collect_step g p : timers_ok g -> timers_ok (collect_step g p).
Proof.
  intros [Hr Hs Hsh Hst Hsi He Hb Hc]. unfold collect_step, apply_powerup.
  repeat match goal with |- context [if ?c then _ else _] => destruct c end;
    constructor; cbn; auto; intros _; qground.
Qed.

Lemma timers_ok_passive_falling dt mul g :
  timers_ok g -> timers_ok (passive_score dt mul (powerup_falling dt g)).
Proof. intros []. constructor; auto. Qed.

Lemma timers_ok_after_bullets dt mul g : timers_ok g -> timers_ok (after_bullets dt mul g).
Proof.
  intro Hg. unfold after_bullets.
  pose proof (timers_ok_enemy_bullets_vs_player (player_rect g) (enemy_bullets g) g Hg) as H1.
  destruct (enemy_bullets_vs_player (player_rect g) (enemy_bullets g) g) as [g1|g1];
    cbn [flow_game] in H1; [|exact H1].
  pose proof (timers_ok_enemies_vs_player (player_rect g) (enemies g1) g1 H1) as H2.
  destruct (enemies_vs_player (player_rect g) (enemies g1) g1) as [g2|g2];
    cbn [flow_game] in H2; [|exact H2].
  assert (H3 : timers_ok (powerup_collection g2)).
  { unfold powerup_collection. apply fold_left_inv; [|exact H2].
    intros; now apply timers_ok_collect_step. }
  apply timers_ok_passive_falling. exact H3.
Qed.

Lemma timers_ok_advance_clock dt g : timers_ok g -> timers_ok (advance_clock dt g).
Proof. intros []. constructor; auto. Qed.

Lemma timers_ok_player_movement dt mul g : timers_ok g -> timers_ok (player_movement dt mul g).
Proof. intros []. constructor; auto. Qed.

Lemma timers_ok_update_bullets dt g : timers_ok g -> timers_ok (update_bullets dt g).
Proof. intros []. constructor; auto. Qed.

Lemma timers_ok_update_enemy_bullets dt g :
  timers_ok g -> timers_ok (update_enemy_bullets dt g).
Proof. intros []. constructor; auto. Qed.

Lemma timers_ok_update dt g : 0 <= dt -> timers_ok g -> timers_ok (update env dt g).
Proof.
  intros Hdt Hg. destruct (live g) eqn:Hl; [|now rewrite update_idle].
  rewrite (update_live env dt g Hl). unfold after_movement.
  apply timers_ok_after_bullets.
  unfold bullets_vs_enemies. apply fold_left_inv; [intros; now apply timers_ok_bullet_step|].
  apply timers_ok_boss_behavior; [exact Hdt|].
  apply timers_ok_update_enemies; [exact Hdt|].
  apply timers_ok_update_enemy_bullets, timers_ok_update_bullets, timers_ok_powerup_timers,
    timers_ok_player_movement, timers_ok_boss_threshold, timers_ok_spawn_regular;
    [exact Hdt|].
  apply timers_ok_advance_clock. exact Hg.
Qed.

Lemma timers_ok_fire_bullet g : timers_ok g -> timers_ok (fire_bullet g).
Proof.
  intro Hg. unfold fire_bullet.
  repeat match goal with |- context [if ?c then _ else _] => destruct c eqn:? end;
    destruct Hg; constructor; cbn; auto; qground.
Qed.

End Timers.

(** C6, as the code has it.  In every state reached by [reset], [update]
    with [dt >= 0], [fire_bullet], the key assignments and the cooldown
    tick, the spawn timer, the spawn interval (at least the minimum), the
    shoot timer and interval of every enemy and of the boss and the fire
    cooldown are not negative, and an effect that is on has a positive
    countdown: the frame in which a countdown falls to zero or below turns
    the effect off.  The countdown of an effect that is off is not
    constrained. *)
Theorem timers_of_reachable_states (env : Env) (g : Game) :
  (forall n, 0 <= rnd env n) ->
  reachable env g ->
  timers_ok g.
Proof.
  intros Hrnd H.
  induction H as [g0 | g dt H IH Hdt | g H IH | g l r H IH | g dt H IH Hdt].
  - constructor; cbn; first [discriminate | qground | constructor].
  - now apply timers_ok_update.
  - now apply timers_ok_fire_bullet.
  - destruct IH. constructor; auto.
  - destruct IH. constructor; auto. cbn. apply max_lower.
Qed.

Lemma world_nonneg (l : list Q) :
  Forall (fun q => 0 <= q) l -> forall n, 0 <= rnd (world l) n.
Proof.
  intro H. cbn [rnd world]. induction H as [|q l Hq _ IH]; intro n.
  - destruct n; qground.
  - destruct n; [exact Hq | apply IH].
Qed.

Lemma timers_of_reachable_states_witness :
  timers_ok (run_frames pickup_world pickup_run (reset blank)).
Proof.
  apply (timers_of_reachable_states pickup_world).
  - apply world_nonneg. repeat constructor; qground.
  - apply reachable_run_frames; [apply reach_reset|]. repeat constructor; qground.
Defined.

(** C6 as stated fails: in the run [pickup_run] the rapid-fire countdown
    starts at 8 in the fourth frame, the fifth frame of 8.5 seconds turns
    the effect off and leaves the countdown at -1/2. *)
Lemma expired_countdown_is_negative :
  reachable pickup_world (run_frames pickup_world pickup_run (reset blank))
  /\ rapid_fire (run_frames pickup_world (firstn 4 pickup_run) (reset blank)) = true
  /\ rapid_fire_timer (run_frames pickup_world (firstn 4 pickup_run) (reset blank)) == 8
  /\ rapid_fire (run_frames pickup_world pickup_run (reset blank)) = false
  /\ rapid_fire_timer (run_frames pickup_world pickup_run (reset blank)) == - (1 # 2)
  /\ rapid_fire_timer (run_frames pickup_world pickup_run (reset blank)) < 0.
Proof.
  split.
  { apply reachable_run_frames; [apply reach_reset|]. repeat constructor; qground. }
  split; [vm_compute; reflexivity|].
  split; [vm_compute; reflexivity|].
  split; [vm_compute; reflexivity|].
  split; [vm_compute; reflexivity|].
  vm_compute. reflexivity.
Qed.

(** ** A bullet that destroys an enemy *)

Lemma Qltb_comp (a a' b b' : Q) : a == a' -> b == b' -> (a <? b) = (a' <? b').
Proof. intros Ha Hb. unfold Qltb. now rewrite Ha, Hb. Qed.

Lemma Qleb_comp' (a a' b b' : Q) : a == a' -> b == b' -> (a <=? b) = (a' <=? b').
Proof. intros Ha Hb. unfold Qleb. now rewrite Ha, Hb. Qed.

Lemma max_comp (a a' b b' : Q) : a == a' -> b == b' -> max a b == max a' b'.
Proof.
  intros Ha Hb. unfold max. rewrite (Qltb_comp a a' b b' Ha Hb).
  destruct (a' <? b'); assumption.
Qed.

Lemma min_comp (a a' b b' : Q) : a == a' -> b == b' -> min a b == min a' b'.
Proof.
  intros Ha Hb. unfold min. rewrite (Qltb_comp b b' a a' Hb Ha).
  destruct (b' <? a'); assumption.
Qed.

Lemma clamp_comp (v v' a a' b b' : Q) :
  v == v' -> a == a' -> b == b' -> clamp v a b == clamp v' a' b'.
Proof. intros. unfold clamp. apply max_comp; [|apply min_comp]; assumption. Qed.

Lemma bullet_hits_enemy_comp (b b' : Bullet.t) (e e' : Enemy.t) :
  Bullet.x b == Bullet.x b' -> Bullet.y b == Bullet.y b' ->
  Enemy.x e == Enemy.x e' -> Enemy.y e == Enemy.y e' -> Enemy.r e == Enemy.r e' ->
  bullet_hits_enemy b e = bullet_hits_enemy b' e'.
Proof.
  intros Hbx Hby Hex Hey Her. unfold bullet_hits_enemy.
  assert (Hcx : clamp (Bullet.x b) (Enemy.x e - Enemy.r e) (Enemy.x e + Enemy.r e)
                == clamp (Bullet.x b') (Enemy.x e' - Enemy.r e') (Enemy.x e' + Enemy.r e')).
  { apply clamp_comp; [assumption | now rewrite Hex, Her | now rewrite Hex, Her]. }
  assert (Hcy : clamp (Bullet.y b) (Enemy.y e - Enemy.r e) (Enemy.y e + Enemy.r e)
                == clamp (Bullet.y b') (Enemy.y e' - Enemy.r e') (Enemy.y e' + Enemy.r e')).
  { apply clamp_comp; [assumption | now rewrite Hey, Her | now rewrite Hey, Her]. }
  cbv zeta. apply Qleb_comp'; [|now rewrite Her].
  now rewrite Hcx, Hcy, Hbx, Hby.
Qed.

Lemma Enemy_eqb_place (a b : Enemy.t) :
  Enemy.eqb a b = true ->
  Enemy.x a == Enemy.x b /\ Enemy.y a == Enemy.y b /\ Enemy.r a == Enemy.r b.
Proof.
  unfold Enemy.eqb. intro H.
  repeat (apply andb_prop in H as [H ?]).
  repeat split; now apply Qeq_bool_eq.
Qed.

Lemma Bullet_eqb_place (a b : Bullet.t) :
  Bullet.eqb a b = true -> Bullet.x a == Bullet.x b /\ Bullet.y a == Bullet.y b.
Proof.
  unfold Bullet.eqb. intro H.
  repeat (apply andb_prop in H as [H ?]).
  split; now apply Qeq_bool_eq.
Qed.

Lemma Qeq_bool_refl' (q : Q) : (q =? q) = true.
Proof. apply Qeq_bool_iff. reflexivity. Qed.

Lemma Motion_eqb_refl (m : Motion) : Motion_eqb m m = true.
Proof.
  destruct m; simpl; rewrite ?Qeq_bool_refl', ?Z.eqb_refl; reflexivity.
Qed.

Lemma Enemy_eqb_refl (e : Enemy.t) : Enemy.eqb e e = true.
Proof.
  unfold Enemy.eqb. rewrite !Qeq_bool_refl', Motion_eqb_refl, Bool.eqb_reflx. reflexivity.
Qed.

Lemma Bullet_eqb_refl (b : Bullet.t) : Bullet.eqb b b = true.
Proof. unfold Bullet.eqb. rewrite !Qeq_bool_refl', !Z.eqb_refl. reflexivity. Qed.

Lemma remove_at {A : Type} (eqb : A -> A -> bool) (v : A) (pre post : list A) :
  (forall a, In a pre -> eqb a v = false) ->
  eqb v v = true ->
  remove eqb v (pre ++ v :: post) = pre ++ post.
Proof.
  intros Hpre Hv. induction pre as [|a pre IH]; simpl.
  - now rewrite Hv.
  - rewrite (Hpre a (or_introl eq_refl)). f_equal. apply IH.
    intros a' Ha'. apply Hpre. now right.
Qed.

Lemma length_remove {A : Type} (eqb : A -> A -> bool) (v : A) (l : list A) :
  (List.length l <= S (List.length (remove eqb v l)))%nat.
Proof.
  induction l as [|a l IH]; simpl; [lia|].
  destruct (eqb a v); simpl; lia.
Qed.

Lemma find_none_iff {A : Type} (f : A -> bool) (l : list A) :
  (forall a, In a l -> f a = false) -> find f l = None.
Proof.
  induction l as [|a l IH]; intro H; simpl; [reflexivity|].
  rewrite (H a (or_introl eq_refl)). apply IH. intros a' Ha'. apply H. now right.
Qed.

Lemma find_at {A : Type} (f : A -> bool) (v : A) (pre post : list A) :
  (forall a, In a pre -> f a = false) -> f v = true -> find f (pre ++ v :: post) = Some v.
Proof.
  intros Hpre Hv. induction pre as [|a pre IH]; simpl.
  - now rewrite Hv.
  - rewrite (Hpre a (or_introl eq_refl)). apply IH. intros a' Ha'. apply Hpre. now right.
Qed.

Section Duel.

Context (env : Env).

Lemma bullet_step_miss b g :
  find (bullet_hits_enemy b) (enemies g) = None ->
  (forall bo, boss g = Some bo -> bullet_hits_boss b bo = false) ->
  bullet_step env b g = g.
Proof.
  intros Hf Hb. unfold bullet_step, hit_boss. rewrite Hf.
  destruct (boss g) as [bo|]; [|reflexivity].
  now rewrite (Hb bo eq_refl).
Qed.

Lemma bullets_all_miss l g :
  (forall b, In b l ->
     find (bullet_hits_enemy b) (enemies g) = None
     /\ forall bo, boss g = Some bo -> bullet_hits_boss b bo = false) ->
  fold_left (fun g' b => bullet_step env b g') l g = g.
Proof.
  induction l as [|b l IH]; intro H; simpl; [reflexivity|].
  destruct (H b (or_introl eq_refl)) as [Hf Hb].
  rewrite (bullet_step_miss b g Hf Hb). apply IH.
  intros b' Hb'. apply H. now right.
Qed.

Lemma destroy_enemy_effect b e g :
  enemies (destroy_enemy env b e g) = remove Enemy.eqb e (enemies g)
  /\ bullets (destroy_enemy env b e g) = remove Bullet.eqb b (bullets g)
  /\ score (destroy_enemy env b e g) = score g + inject_Z (10 + int (Enemy.r e))
  /\ played (destroy_enemy env b e g) = played g ++ ["explode"%string]
  /\ boss (destroy_enemy env b e g) = boss g
  /\ enemy_bullets (destroy_enemy env b e g) = enemy_bullets g
  /\ helm (destroy_enemy env b e g) = helm g.
Proof.
  unfold destroy_enemy, spawn_powerup, random, choice, bind, ret. cbn.
  destruct (_ <? POWERUP_SPAWN_CHANCE); repeat split.
Qed.

Lemma enemy_bullets_all_miss rc l g :
  (forall eb, In eb l -> enemy_bullet_hits rc eb = false) ->
  enemy_bullets_vs_player rc l g = Next g.
Proof.
  induction l as [|eb l IH]; intro H; simpl; [reflexivity|].
  rewrite (H eb (or_introl eq_refl)). apply IH. intros eb' H'. apply H. now right.
Qed.

Lemma enemies_all_miss rc l g :
  (forall e, In e l -> enemy_hits rc e = false) ->
  enemies_vs_player rc l g = Next g.
Proof.
  induction l as [|e l IH]; intro H; simpl; [reflexivity|].
  rewrite (H e (or_introl eq_refl)). apply IH. intros e' H'. apply H. now right.
Qed.

Lemma explosions_play_power g : explosions (play "power"%string g) = explosions g.
Proof.
  unfold explosions, play. cbn [played set_played].
  rewrite filter_app, length_app. cbn. lia.
Qed.

Lemma arena_collect_step g p : arena (collect_step g p) = arena g.
Proof.
  unfold collect_step. destruct (powerup_in_reach g p); [|reflexivity].
  unfold arena. cbn [enemies bullets score boss set_powerups].
  unfold explosions at 1. cbn [played set_powerups].
  change (List.length (filter (String.eqb "explode")
            (played (play "power"%string (apply_powerup (PowerUp.kind p) g)))))
    with (explosions (play "power"%string (apply_powerup (PowerUp.kind p) g))).
  rewrite explosions_play_power.
  unfold apply_powerup.
  repeat match goal with |- context [if ?c then _ else _] => destruct c end; reflexivity.
Qed.

Lemma tally_powerup_timers dt g :
  score (powerup_timers dt g) = score g /\ played (powerup_timers dt g) = played g.
Proof.
  unfold powerup_timers, shield_tick, spread_tick, rapid_fire_tick.
  split_ifs; split; reflexivity.
Qed.

Lemma tally_boss_behavior dt g :
  score (boss_behavior env dt g) = score g /\ played (boss_behavior env dt g) = played g.
Proof. unfold boss_behavior. split_ifs; split; reflexivity. Qed.

Lemma off_enemies_update_enemies dt mul g :
  off_enemies (update_enemies env dt mul g) = off_enemies g.
Proof.
  unfold update_enemies.
  assert (H : forall es g0, off_enemies (snd (enemies_loop env dt mul es g0)) = off_enemies g0).
  { induction es as [|e rest IH]; intro g0; simpl; [reflexivity|].
    assert (Hs : off_enemies
                   (snd (enemy_shoot env dt (move_enemy env (elapsed g0) dt mul e) g0))
                 = off_enemies g0).
    { unfold enemy_shoot. split_ifs; reflexivity. }
    destruct (enemy_shoot env dt (move_enemy env (elapsed g0) dt mul e) g0) as [e2 g1].
    specialize (IH g1). destruct (enemies_loop env dt mul rest g1) as [rest' g2].
    cbn [snd] in *. congruence. }
  specialize (H (enemies g) g).
  destruct (enemies_loop env dt mul (enemies g) g) as [es g']. exact H.
Qed.

Lemma tally_bullets_moved dt g :
  score (update_enemy_bullets dt (update_bullets dt g)) = score g
  /\ played (update_enemy_bullets dt (update_bullets dt g)) = played g.
Proof. split; reflexivity. Qed.

Lemma tally_at_collisions dt g :
  score (at_collisions env dt g) = score g /\ played (at_collisions env dt g) = played g.
Proof.
  unfold at_collisions, motion. cbv zeta.
  match goal with |- score (boss_behavior env dt ?s) = _ /\ _ =>
    destruct (tally_boss_behavior dt s) as [-> ->] end.
  match goal with |- score (update_enemies env dt ?m ?s) = _ /\ _ =>
    destruct (off_enemies_fields _ _ (off_enemies_update_enemies dt m s)) as [-> ->] end.
  match goal with |- score (update_enemy_bullets dt (update_bullets dt ?s)) = _ /\ _ =>
    destruct (tally_bullets_moved dt s) as [-> ->] end.
  match goal with |- score (powerup_timers dt ?s) = _ /\ _ =>
    destruct (tally_powerup_timers dt s) as [-> ->] end.
  match goal with |- score (player_movement dt ?m ?s) = _ /\ _ =>
    destruct (player_movement_fields dt m s) as (_ & _ & _ & _ & _ & -> & ->) end.
  destruct (boss_threshold_keeps (spawn_regular env dt (advance_clock dt g))) as [Hd1 _].
  apply deck_fields in Hd1 as (_ & _ & _ & _ & _ & _ & Hs1 & Hp1 & _).
  destruct (spawn_regular_keeps env dt (advance_clock dt g)) as [Hd2 _].
  apply deck_fields in Hd2 as (_ & _ & _ & _ & _ & _ & Hs2 & Hp2 & _).
  destruct (advance_clock_fields dt g) as (_ & _ & _ & Hs3 & Hp3 & _).
  split; congruence.
Qed.

End Duel.

Lemma arena_fields (a b : Game) :
  arena a = arena b ->
  enemies a = enemies b /\ bullets a = bullets b /\ score a = score b
  /\ boss a = boss b /\ explosions a = explosions b.
Proof. unfold arena. intro H. injection H. intros. repeat split; assumption. Qed.

Lemma arena_passive_falling dt mul g :
  enemies (passive_score dt mul (powerup_falling dt g)) = enemies g
  /\ bullets (passive_score dt mul (powerup_falling dt g)) = bullets g
  /\ score (passive_score dt mul (powerup_falling dt g)) = score g + dt * 5 * mul
  /\ boss (passive_score dt mul (powerup_falling dt g)) = boss g
  /\ explosions (passive_score dt mul (powerup_falling dt g)) = explosions g.
Proof. repeat split. Qed.

Lemma enemies_hit_boss b g : enemies (hit_boss b g) = enemies g.
Proof. unfold hit_boss. split_ifs; reflexivity. Qed.

Lemma one_enemy_per_bullet env b g :
  (List.length (enemies g) <= S (List.length (enemies (bullet_step env b g))))%nat.
Proof.
  unfold bullet_step. destruct (find (bullet_hits_enemy b) (enemies g)) as [e|].
  - destruct (destroy_enemy_effect env b e g) as (-> & _). apply length_remove.
  - rewrite enemies_hit_boss. lia.
Qed.

Lemma player_rect_helm (a b : Game) : helm a = helm b -> player_rect a = player_rect b.
Proof.
  intro H. apply helm_fields in H as (Hx & Hy & _). unfold player_rect. now rewrite Hx, Hy.
Qed.

Lemma difficulty_mul_advance_clock dt g :
  difficulty_mul (advance_clock dt g) = 1 + (elapsed g + dt) / 60.
Proof. reflexivity. Qed.

(** C4, as the code has it.  [update] moves bullets and enemies before it
    tests them, and adds the passive score at its end.  If, when
    "Collisions: bullets vs enemies" begins, a bullet [b] overlaps an enemy
    [e] and nothing else collides in the frame (no other bullet with an
    enemy or the boss, nothing with the player), then the call removes [b]
    and [e] and no other bullet or enemy, requests exactly one "explode"
    sound, and the score grows by [10 + int(e.r)] and by the passive
    [dt * 5 * (1 + elapsed/60)]: by [10 + int(e.r)] alone when [dt] is 0.
    No bullet removes more than one enemy. *)
Theorem bullet_destroys_enemy
    (env : Env) (dt : Q) (g : Game) (b : Bullet.t) (e : Enemy.t)
    (bpre bpost : list Bullet.t) (epre epost : list Enemy.t) :
  live g = true ->
  bullets (at_collisions env dt g) = bpre ++ b :: bpost ->
  enemies (at_collisions env dt g) = epre ++ e :: epost ->
  bullet_hits_enemy b e = true ->
  (forall b' e', In b' (bpre ++ b :: bpost) -> In e' (epre ++ epost) ->
                 bullet_hits_enemy b' e' = false) ->
  (forall b', In b' (bpre ++ bpost) -> bullet_hits_enemy b' e = false) ->
  (forall b' bo, In b' (bpre ++ bpost) -> boss (at_collisions env dt g) = Some bo ->
                 bullet_hits_boss b' bo = false) ->
  (forall eb, In eb (enemy_bullets (at_collisions env dt g)) ->
              enemy_bullet_hits (player_rect (at_collisions env dt g)) eb = false) ->
  (forall e', In e' (epre ++ epost) ->
              enemy_hits (player_rect (at_collisions env dt g)) e' = false) ->
  enemies (update env dt g) = epre ++ epost
  /\ bullets (update env dt g) = bpre ++ bpost
  /\ score (update env dt g)
     = score g + inject_Z (10 + int (Enemy.r e)) + dt * 5 * (1 + (elapsed g + dt) / 60)
  /\ explosions (update env dt g) = S (explosions g)
  /\ boss (update env dt g) = boss (at_collisions env dt g)
  /\ (dt == 0 -> score (update env dt g) == score g + inject_Z (10 + int (Enemy.r e)))
  /\ (forall b' g',
        (List.length (enemies g') <= S (List.length (enemies (bullet_step env b' g'))))%nat).
Proof.
  intros Hl Hbul Hen Hhit Hothers Hsame Hboss Hebs Hes.
  rewrite (update_at_player_hits env dt g Hl). unfold at_player_hits.
  rewrite <- (difficulty_mul_advance_clock dt g).
  generalize (difficulty_mul (advance_clock dt g)). intro mul.
  destruct (tally_at_collisions env dt g) as [Hs0 Hp0].
  assert (Hx0 : explosions (at_collisions env dt g) = explosions g).
  { unfold explosions. now rewrite Hp0. }
  rewrite <- Hs0, <- Hx0. clear Hs0 Hp0 Hx0.
  revert Hbul Hen Hboss Hebs Hes.
  generalize (at_collisions env dt g). intros g1 Hbul Hen Hboss Hebs Hes.
  (* the bullets before [b] hit nothing *)
  assert (Hmiss : forall b', In b' (bpre ++ bpost) ->
            forall a, In a (epre ++ e :: epost) -> bullet_hits_enemy b' a = false).
  { intros b' Hb' a Ha. apply in_app_or in Ha as [Ha | [<- | Ha]].
    - apply Hothers; [|apply in_or_app; now left].
      apply in_app_or in Hb' as [Hb'|Hb']; apply in_or_app; [now left | right; now right].
    - now apply Hsame.
    - apply Hothers; [|apply in_or_app; now right].
      apply in_app_or in Hb' as [Hb'|Hb']; apply in_or_app; [now left | right; now right]. }
  assert (Hb_in : In b (bpre ++ b :: bpost)) by (apply in_or_app; right; now left).
  assert (Hepre : forall a, In a epre -> Enemy.eqb a e = false).
  { intros a Ha. destruct (Enemy.eqb a e) eqn:E; [|reflexivity].
    apply Enemy_eqb_place in E as (Ex & Ey & Er).
    rewrite <- (Hothers b a Hb_in (in_or_app _ _ _ (or_introl Ha))), <- Hhit.
    apply bullet_hits_enemy_comp; try reflexivity; symmetry; assumption. }
  assert (Hbpre : forall a, In a bpre -> Bullet.eqb a b = false).
  { intros a Ha. destruct (Bullet.eqb a b) eqn:E; [|reflexivity].
    apply Bullet_eqb_place in E as (Ex & Ey).
    rewrite <- (Hsame a (in_or_app _ _ _ (or_introl Ha))), <- Hhit.
    apply bullet_hits_enemy_comp; try reflexivity; symmetry; assumption. }
  (* the state after "Collisions: bullets vs enemies" *)
  assert (Hfold : bullets_vs_enemies env g1 = destroy_enemy env b e g1).
  { unfold bullets_vs_enemies. rewrite Hbul, fold_left_app.
    rewrite (bullets_all_miss env bpre g1).
    2:{ intros b' Hb'. split.
        - apply find_none_iff. rewrite Hen. intros a Ha.
          apply (Hmiss b'); [apply in_or_app; now left | exact Ha].
        - intros bo. apply Hboss. apply in_or_app; now left. }
    cbn [fold_left]. unfold bullet_step at 2. rewrite Hen.
    rewrite (find_at (bullet_hits_enemy b) e epre epost).
    2:{ intros a Ha. apply Hothers; [exact Hb_in | apply in_or_app; now left]. }
    2:{ exact Hhit. }
    destruct (destroy_enemy_effect env b e g1) as (He2 & _ & _ & _ & Hb2 & _).
    apply bullets_all_miss. intros b' Hb'. split.
    - apply find_none_iff. rewrite He2, Hen, (remove_at Enemy.eqb e epre epost Hepre
        (Enemy_eqb_refl e)).
      intros a Ha. apply Hothers; [apply in_or_app; right; now right | exact Ha].
    - rewrite Hb2. intros bo. apply Hboss. apply in_or_app; now right. }
  rewrite Hfold.
  destruct (destroy_enemy_effect env b e g1) as (He2 & Hb2 & Hs2 & Hp2 & Hbo2 & Heb2 & Hh2).
  rewrite Hen, (remove_at Enemy.eqb e epre epost Hepre (Enemy_eqb_refl e)) in He2.
  rewrite Hbul, (remove_at Bullet.eqb b bpre bpost Hbpre (Bullet_eqb_refl b)) in Hb2.
  assert (Hx2 : explosions (destroy_enemy env b e g1) = S (explosions g1)).
  { unfold explosions. rewrite Hp2, filter_app, length_app. cbn. lia. }
  pose proof (player_rect_helm _ _ Hh2) as Hrc.
  revert He2 Hb2 Hs2 Hbo2 Heb2 Hx2 Hrc. clear Hp2 Hh2 Hfold.
  generalize (destroy_enemy env b e g1). intros g2 He2 Hb2 Hs2 Hbo2 Heb2 Hx2 Hrc.
  (* nothing touches the player *)
  assert (Hafter : after_bullets dt mul g2
                   = passive_score dt mul (powerup_falling dt (powerup_collection g2))).
  { unfold after_bullets.
    rewrite (enemy_bullets_all_miss (player_rect g2) (enemy_bullets g2) g2).
    2:{ rewrite Hrc, Heb2. exact Hebs. }
    rewrite (enemies_all_miss (player_rect g2) (enemies g2) g2).
    2:{ rewrite Hrc, He2. exact Hes. }
    reflexivity. }
  rewrite Hafter.
  destruct (arena_passive_falling dt mul (powerup_collection g2))
    as (-> & -> & -> & -> & ->).
  assert (Hcol : arena (powerup_collection g2) = arena g2).
  { unfold powerup_collection. apply (fold_left_view arena collect_step).
    intros; apply arena_collect_step. }
  apply arena_fields in Hcol as (-> & -> & -> & -> & ->).
  rewrite He2, Hb2, Hs2, Hbo2, Hx2.
  split; [reflexivity|]. split; [reflexivity|]. split; [reflexivity|].
  split; [reflexivity|]. split; [reflexivity|]. split.
  - intro Hdt. rewrite Hdt. ring.
  - intros b' g'. apply one_enemy_per_bullet.
Qed.

Lemma bullet_destroys_enemy_witness :
  enemies (update crash_world 0 duel) = []
  /\ bullets (update crash_world 0 duel) = []
  /\ score (update crash_world 0 duel) == 20
  /\ explosions (update crash_world 0 duel) = 1%nat.
Proof.
  destruct (bullet_destroys_enemy crash_world 0 duel
              (Bullet.mk 100 (95 + - BULLET_SPEED * 0) (- BULLET_SPEED) BULLET_W BULLET_H)
              (Enemy.mk 100 (100 + 70 * difficulty_mul (advance_clock 0 duel) * 0) 10 70
                        Straight 0 false 0 2)
              [] [] [] [])
    as (He & Hb & _ & Hx & _ & Hs & _).
  - reflexivity.
  - reflexivity.
  - reflexivity.
  - vm_compute. reflexivity.
  - intros b' e' _ [].
  - intros b' [].
  - intros b' bo [].
  - intros eb [].
  - intros e' [].
  - split; [exact He|]. split; [exact Hb|]. split; [|exact Hx].
    rewrite Hs; [vm_compute; reflexivity | reflexivity].
Defined.

(** C4 as stated fails.  In [duel] the bullet at (100, 95) overlaps the
    enemy of radius 10 at (100, 100) when the call begins.  A frame of 1/4
    second first moves the bullet off the screen and nothing is destroyed;
    a frame of 1/64 second destroys the enemy and the score grows by more
    than 20, the passive score of the frame included. *)
Lemma bullet_is_moved_before_it_is_tested :
  live duel = true
  /\ (exists b e, bullets duel = [b] /\ enemies duel = [e]
                  /\ bullet_hits_enemy b e = true /\ int (Enemy.r e) = 10%Z)
  /\ 0 <= 1 # 4
  /\ bullets (update crash_world (1 # 4) duel) = []
  /\ List.length (enemies (update crash_world (1 # 4) duel)) = 1%nat
  /\ explosions (update crash_world (1 # 4) duel) = 0%nat
  /\ score (update crash_world (1 # 4) duel) == 241 # 192
  /\ enemies (update crash_world (1 # 64) duel) = []
  /\ explosions (update crash_world (1 # 64) duel) = 1%nat
  /\ score (update crash_world (1 # 64) duel) == 20 + (3841 # 49152)
  /\ ~ score (update crash_world (1 # 64) duel) == score duel + 20.
Proof.
  split; [reflexivity|].
  split; [do 2 eexists; repeat split; vm_compute; reflexivity|].
  split; [qground|].
  split; [vm_compute; reflexivity|].
  split; [vm_compute; reflexivity|].
  split; [vm_compute; reflexivity|].
  split; [vm_compute; reflexivity|].
  split; [vm_compute; reflexivity|].
  split; [vm_compute; reflexivity|].
  split; [vm_compute; reflexivity|].
  intro H. vm_compute in H. discriminate.
Qed.
